(** * boleto.js: the bank-slip number pipeline of [src/boleto.js]

    A shallow embedding of the [modulo11] checksum and of the [Boleto] class
    (constructor, [valid], [barcode], [number], [prettyNumber], [bank],
    [currency], [checksum], [expirationDate], [amount], [prettyAmount]),
    with the JavaScript values they work on:

    - a string is its sequence of UTF-16 code units;
    - a number is an integer or NaN (every number this code computes from
      digit input is an integer far below 2^53, where doubles are exact);
    - arrays live in a store and are passed by reference, since [modulo11]
      reverses its argument in place. *)

From Stdlib Require Import ZArith NArith Lia DecimalN.
From Stdlib Require Import Strings.String Strings.Ascii.
From stdpp Require Import base list.

Local Open Scope Z_scope.

(** ** Strings *)

(** A UTF-16 code unit. *)
Abbreviation char := N (only parsing).
Abbreviation jsstring := (list N) (only parsing).

(** The code units of a literal. *)
Definition str (s : string) : jsstring :=
  map N_of_ascii (list_ascii_of_string s).

(** The regular-expression class [\d]: the ten ASCII digits. *)
Definition is_digit (c : char) : bool := ((48 <=? c) && (c <=? 57))%N.

Definition digit_value (c : char) : Z := Z.of_N c - 48.

(** [StrWhiteSpaceChar] of ECMAScript (WhiteSpace and LineTerminator), for
    the conversion of a string to a number. *)
Definition is_whitespace (c : char) : bool :=
  ((9 <=? c) && (c <=? 13) || (c =? 32) || (c =? 160) || (c =? 5760)
   || (8192 <=? c) && (c <=? 8202) || (c =? 8232) || (c =? 8233)
   || (c =? 8239) || (c =? 8287) || (c =? 12288) || (c =? 65279))%N.

(** [s.substr(start, len)] for in-range, non-negative arguments. *)
Definition substr (s : jsstring) (start len : nat) : jsstring :=
  take len (drop start s).

(** ** Numbers *)

(** [None] is NaN. *)
Abbreviation jsnum := (option Z) (only parsing).

Definition num_add (a b : jsnum) : jsnum :=
  match a, b with Some x, Some y => Some (x + y) | _, _ => None end.

Definition num_sub (a b : jsnum) : jsnum :=
  match a, b with Some x, Some y => Some (x - y) | _, _ => None end.

Definition num_mul (a b : jsnum) : jsnum :=
  match a, b with Some x, Some y => Some (x * y) | _, _ => None end.

(** [a % b]: the remainder has the sign of the dividend; [x % 0] is NaN. *)
Definition num_rem (a b : jsnum) : jsnum :=
  match a, b with
  | Some x, Some y => if y =? 0 then None else Some (Z.rem x y)
  | _, _ => None
  end.

(** [a || b] on numbers: 0 and NaN are falsy. *)
Definition num_or (a b : jsnum) : jsnum :=
  match a with
  | None | Some 0 => b
  | Some _ => a
  end.

Fixpoint uint_chars (u : Decimal.uint) : jsstring :=
  match u with
  | Decimal.Nil => []
  | Decimal.D0 u => 48%N :: uint_chars u
  | Decimal.D1 u => 49%N :: uint_chars u
  | Decimal.D2 u => 50%N :: uint_chars u
  | Decimal.D3 u => 51%N :: uint_chars u
  | Decimal.D4 u => 52%N :: uint_chars u
  | Decimal.D5 u => 53%N :: uint_chars u
  | Decimal.D6 u => 54%N :: uint_chars u
  | Decimal.D7 u => 55%N :: uint_chars u
  | Decimal.D8 u => 56%N :: uint_chars u
  | Decimal.D9 u => 57%N :: uint_chars u
  end.

(** [Number.prototype.toString] on an integer below 10^21 or NaN. *)
Definition Number_toString (n : jsnum) : jsstring :=
  match n with
  | None => str "NaN"
  | Some z =>
      if z <? 0 then str "-" ++ uint_chars (N.to_uint (Z.to_N (- z)))
      else uint_chars (N.to_uint (Z.to_N z))
  end.

(** The value of a string of decimal digits, most significant first. *)
Definition digits_value (s : jsstring) : Z :=
  foldl (fun acc c => 10 * acc + digit_value c) 0 s.

Fixpoint trim_left (s : jsstring) : jsstring :=
  match s with
  | c :: s' => if is_whitespace c then trim_left s' else s
  | [] => []
  end.

Definition trim (s : jsstring) : jsstring :=
  reverse (trim_left (reverse (trim_left s))).

(** The conversion of a string to a number, on the strings this program
    converts: white space is trimmed, the empty string is 0, a run of
    decimal digits is its value.  Every other string is mapped to NaN; that
    is exact for a string of one code unit, and the longer strings converted
    here (the day and amount fields of a barcode) are digits only. *)
Definition StringToNumber (s : jsstring) : jsnum :=
  let t := trim s in
  match t with
  | [] => Some 0
  | _ => if forallb is_digit t then Some (digits_value t) else None
  end.

(** ** Arrays and the store *)

(** An array element: a number, or a string of one code unit as produced by
    [split('')]. *)
Inductive elem : Type :=
  | ENum (n : Z)
  | EChr (c : N).

Abbreviation array := (list elem) (only parsing).

(** Arrays are objects: the store maps a reference to the array's current
    contents.  References come from [Array_new] only, so they are never
    dangling; reading one that is yields the empty array. *)
Abbreviation heap := (list (list elem)) (only parsing).
Abbreviation ref := nat (only parsing).

(** The argument of [modulo11]: [@params {Array|String} digits]. *)
Inductive value : Type :=
  | VStr (s : list N)
  | VArr (r : nat).

(** [x * e] and [sum + e] convert the element [e] to a number; an index out
    of range reads [undefined], which converts to NaN. *)
Definition ToNumber (e : option elem) : jsnum :=
  match e with
  | Some (ENum n) => Some n
  | Some (EChr c) => StringToNumber [c]
  | None => None
  end.

Definition elem_toString (e : elem) : jsstring :=
  match e with
  | ENum n => Number_toString (Some n)
  | EChr c => [c]
  end.

(** Computations on the store. *)
Definition M (A : Type) : Type := heap -> A * heap.

Definition ret {A} (a : A) : M A := fun h => (a, h).

Definition bind {A B} (m : M A) (k : A -> M B) : M B :=
  fun h => let (a, h') := m h in k a h'.

Notation "'do' x <- m ; k" := (bind m (fun x => k))
  (at level 10, x name, m at level 100, k at level 200, only parsing).
Notation "'do_' m ; k" := (bind m (fun _ => k))
  (at level 10, m at level 100, k at level 200, only parsing).

Definition Array_new (a : array) : M ref :=
  fun h => (length h, h ++ [a]).

Definition Array_get (r : ref) : M array :=
  fun h => (default [] (h !! r), h).

Definition Array_set (r : ref) (a : array) : M unit :=
  fun h => (tt, <[r := a]> h).

(** [s.split('')]: a fresh array of the code units of [s]. *)
Definition String_split (s : jsstring) : M ref :=
  Array_new (EChr <$> s).

(** [a.reverse()]: reverses the array in place. *)
Definition Array_reverse (r : ref) : M ref :=
  do a <- Array_get r;
  do_ Array_set r (reverse a);
  ret r.

(** [a.splice(start, count)]: removes [count] elements from index [start]
    in place and returns them in a fresh array. *)
Definition Array_splice (r : ref) (start count : nat) : M ref :=
  do a <- Array_get r;
  do_ Array_set r (take start a ++ drop (start + count) a);
  Array_new (take count (drop start a)).

Fixpoint join (sep : jsstring) (l : list jsstring) : jsstring :=
  match l with
  | [] => []
  | [x] => x
  | x :: l' => x ++ sep ++ join sep l'
  end.

(** [a.toString()]: the elements joined by commas. *)
Definition Array_toString (r : ref) : M jsstring :=
  do a <- Array_get r;
  ret (join (str ",") (elem_toString <$> a)).

(** ** modulo11 *)

(** The body of the [for] loop at index [i]:
    [sum += ((i % 8) + 2) * digits[i]]. *)
Definition modulo11_step (digits : array) (i : nat) (sum : jsnum) : jsnum :=
  num_add sum
    (num_mul (num_add (num_rem (Some (Z.of_nat i)) (Some 8)) (Some 2))
             (ToNumber (digits !! i))).

(** [for (let i = ...; i < digits.length; i += 1)], run for at most [steps]
    iterations; [modulo11] gives it [digits.length] of them. *)
Fixpoint modulo11_for (steps : nat) (digits : array) (i : nat) (sum : jsnum)
  : jsnum :=
  match steps with
  | O => sum
  | S k =>
      if (i <? length digits)%nat
      then modulo11_for k digits (i + 1)%nat (modulo11_step digits i sum)
      else sum
  end.

(** [(11 - (sum % 11)) % 10 || 1] *)
Definition modulo11_result (sum : jsnum) : jsnum :=
  num_or (num_rem (num_sub (Some 11) (num_rem sum (Some 11))) (Some 10))
         (Some 1).

Definition modulo11 (number : value) : M jsnum :=
  do digits <- match number with
               | VStr s => String_split s
               | VArr r => ret r
               end;
  do_ Array_reverse digits;
  do a <- Array_get digits;
  ret (modulo11_result (modulo11_for (length a) a 0 (Some 0))).

(** ** Regular expressions

    The two patterns of the class are anchored at both ends and made of
    fixed-width digit runs, captured [(\d{n})] or not [\d{n}]. *)

Inductive item : Type :=
  | Cap (n : nat)
  | Skip (n : nat).

Definition width (it : item) : nat :=
  match it with Cap n | Skip n => n end.

(** The match of [^ p $] against the whole of [s]: its captured groups. *)
Fixpoint regex_exec (p : list item) (s : jsstring) : option (list jsstring) :=
  match p with
  | [] => match s with [] => Some [] | _ :: _ => None end
  | it :: p' =>
      let g := take (width it) s in
      if (length g =? width it)%nat && forallb is_digit g then
        match regex_exec p' (drop (width it) s) with
        | Some caps => Some (match it with Cap _ => g :: caps | Skip _ => caps end)
        | None => None
        end
      else None
  end.

(** A replacement template: group references [$k] and literal text. *)
Inductive piece : Type :=
  | Grp (k : nat)
  | Lit (t : list N).

Definition expand (caps : list jsstring) (tpl : list piece) : jsstring :=
  concat (map (fun pc => match pc with
                         | Grp k => default [] (caps !! (k - 1)%nat)
                         | Lit t => t
                         end) tpl).

(** [s.replace(/^p$/, tpl)]: the input itself when the pattern does not
    match. *)
Definition replace_regex (p : list item) (tpl : list piece) (s : jsstring)
  : jsstring :=
  match regex_exec p s with
  | Some caps => expand caps tpl
  | None => s
  end.

(** [s.replace(pat, rep)] with a string pattern: the first occurrence only
    ([rep] holds no [$]). *)
Fixpoint replace_first (pat rep s : jsstring) : jsstring :=
  if bool_decide (take (length pat) s = pat) then rep ++ drop (length pat) s
  else match s with
       | [] => []
       | c :: s' => c :: replace_first pat rep s'
       end.

(** ** The Boleto class *)

(** An instance: its one field, assigned by the constructor and by nothing
    else; the methods below read it and return no new instance. *)
Record Boleto : Type := { bankSlipNumber : list N }.

Inductive exn : Type := Error (message : list N).

(** [/^(\d{4})(\d{5})\d{1}(\d{10})\d{1}(\d{10})\d{1}(\d{15})$/] and
    ['$1$5$2$3$4'] *)
Definition barcode_pattern : list item :=
  [Cap 4; Cap 5; Skip 1; Cap 10; Skip 1; Cap 10; Skip 1; Cap 15].

Definition barcode_template : list piece :=
  [Grp 1; Grp 5; Grp 2; Grp 3; Grp 4].

Definition barcode (this : Boleto) : jsstring :=
  replace_regex barcode_pattern barcode_template (bankSlipNumber this).

Definition valid (this : Boleto) : M bool :=
  if negb (length (bankSlipNumber this) =? 47)%nat then ret false
  else
    do barcodeDigits <- String_split (barcode this);
    do checksum <- Array_splice barcodeDigits 4 1;
    do m <- modulo11 (VArr barcodeDigits);
    do c <- Array_toString checksum;
    ret (bool_decide (Number_toString m = c)).

(** [bankSlipNumber.replace(/[^\d]/g, '')], then [valid()]. *)
Definition constructor (bankSlipNumber : jsstring) : M (exn + Boleto) :=
  let this := {| bankSlipNumber := List.filter is_digit bankSlipNumber |} in
  do ok <- valid this;
  if negb ok then ret (inl (Error (str "Invalid bank slip number")))
  else ret (inr this).

Definition number (this : Boleto) : jsstring := bankSlipNumber this.

(** [/^(\d{5})(\d{5})(\d{5})(\d{6})(\d{5})(\d{6})(\d{1})(\d{14})$/] and
    ['$1.$2 $3.$4 $5.$6 $7 $8'] *)
Definition prettyNumber_pattern : list item :=
  [Cap 5; Cap 5; Cap 5; Cap 6; Cap 5; Cap 6; Cap 1; Cap 14].

Definition prettyNumber_template : list piece :=
  [Grp 1; Lit (str "."); Grp 2; Lit (str " "); Grp 3; Lit (str ".");
   Grp 4; Lit (str " "); Grp 5; Lit (str "."); Grp 6; Lit (str " ");
   Grp 7; Lit (str " "); Grp 8].

Definition prettyNumber (this : Boleto) : jsstring :=
  replace_regex prettyNumber_pattern prettyNumber_template
    (bankSlipNumber this).

(** The object literal [banks] of [bank()], its properties in source
    order. *)
Definition banks : list (list N * list N) :=
  [ (str "001", str "Banco do Brasil");
    (str "007", str "BNDES");
    (str "033", str "Santander");
    (str "069", str "Crefisa");
    (str "077", str "Banco Inter");
    (str "102", str "XP Investimentos");
    (str "104", str "Caixa Econ" ++ [244%N] ++ str "mica Federal");
    (str "140", str "Easynvest");
    (str "197", str "Stone");
    (str "208", str "BTG Pactual");
    (str "212", str "Banco Original");
    (str "237", str "Bradesco");
    (str "260", str "Nu Pagamentos");
    (str "341", str "Ita" ++ [250%N]);
    (str "389", str "Banco Mercantil do Brasil");
    (str "422", str "Banco Safra");
    (str "505", str "Credit Suisse");
    (str "633", str "Banco Rendimento");
    (str "652", str "Ita" ++ [250%N] ++ str " Unibanco");
    (str "735", str "Banco Neon");
    (str "739", str "Banco Cetelem");
    (str "745", str "Citibank") ].

(** [o[key]] on an object literal with string values: the own property of
    that name, or [undefined].  The properties inherited from
    [Object.prototype] all have names longer than the three code units that
    [bank()] looks up. *)
Fixpoint get_property (o : list (list N * list N)) (key : jsstring)
  : option jsstring :=
  match o with
  | [] => None
  | (k, v) :: o' => if bool_decide (k = key) then Some v else get_property o' key
  end.

(** [a || b] on a string or [undefined]: the empty string and [undefined]
    are falsy. *)
Definition string_or (a : option jsstring) (b : jsstring) : jsstring :=
  match a with
  | None | Some [] => b
  | Some v => v
  end.

Definition bank (this : Boleto) : jsstring :=
  string_or (get_property banks (substr (barcode this) 0 3)) (str "Unknown").

(** What [currency()] returns: an object literal or a string. *)
Inductive currency_value : Type :=
  | CurrencyObject (code symbol decimal : list N)
  | CurrencyString (s : list N).

Definition currency (this : Boleto) : currency_value :=
  match barcode this !! 3%nat with
  | Some c =>
      if (c =? 57)%N
      then CurrencyObject (str "BRL") (str "R$") (str ",")
      else CurrencyString (str "Unknown")
  | None => CurrencyString (str "Unknown")
  end.

Definition checksum (this : Boleto) : option char := barcode this !! 4%nat.

(** ** Dates

    A [Date] object is its time value: milliseconds since 1970-01-01T00:00Z,
    or NaN.  A date-only string is read as UTC midnight of that day. *)

Record Date : Type := { getTime : option Z }.

Definition msPerDay : Z := 86400000.

(** ECMAScript's [DayFromYear]: the day number of January 1st of [y]. *)
Definition DayFromYear (y : Z) : Z :=
  365 * (y - 1970) + (y - 1969) / 4 - (y - 1901) / 100 + (y - 1601) / 400.

Definition InLeapYear (y : Z) : bool :=
  (y mod 4 =? 0) && (negb (y mod 100 =? 0) || (y mod 400 =? 0)).

Definition DaysInMonth (y m : Z) : Z :=
  if m =? 2 then (if InLeapYear y then 29 else 28)
  else if (m =? 4) || (m =? 6) || (m =? 9) || (m =? 11) then 30
  else 31.

(** The days of year [y] before the first of month [m] (1 to 12). *)
Definition DaysBeforeMonth (y m : Z) : Z :=
  foldr (fun k acc => DaysInMonth y k + acc) 0
        (map Z.of_nat (seq 1 (Z.to_nat (m - 1)))).

(** The day number of the calendar day [y]-[m]-[d] (ECMAScript's [MakeDay]
    with the month counted from 1). *)
Definition MakeDay (y m d : Z) : Z :=
  DayFromYear y + DaysBeforeMonth y m + d - 1.

(** [new Date('YYYY-MM-DD')]; other formats are not read here (NaN). *)
Definition Date_of_string (s : jsstring) : Date :=
  match s with
  | [y1; y2; y3; y4; 45%N; m1; m2; 45%N; d1; d2] =>
      let y := digits_value [y1; y2; y3; y4] in
      let m := digits_value [m1; m2] in
      let d := digits_value [d1; d2] in
      if forallb is_digit [y1; y2; y3; y4; m1; m2; d1; d2]
         && (1 <=? m) && (m <=? 12) && (1 <=? d) && (d <=? DaysInMonth y m)
      then {| getTime := Some (MakeDay y m d * msPerDay) |}
      else {| getTime := None |}
  | _ => {| getTime := None |}
  end.

Definition expirationDate (this : Boleto) : Date :=
  let refDate := Date_of_string (str "1997-10-07") in
  let days := substr (barcode this) 5 4 in
  {| getTime := num_add (getTime refDate)
                        (num_mul (StringToNumber days) (Some 86400000)) |}.

(** ** Amounts *)

(** [(x / 100.0).toFixed(2)] for an integer [x] below 10^10, as the ten
    digits of the amount field are: the quotient is the double nearest to
    x/100, within 2^-20 of it, and [toFixed(2)] prints the multiple of 0.01
    nearest to that double, which is x/100 itself. *)
Definition div100_toFixed2 (x : jsnum) : jsstring :=
  match x with
  | None => str "NaN"
  | Some z =>
      let a := Z.abs z in
      (if z <? 0 then str "-" else [])
      ++ Number_toString (Some (a / 100))
      ++ str "."
      ++ [Z.to_N (48 + (a mod 100) / 10); Z.to_N (48 + a mod 10)]
  end.

Definition amount (this : Boleto) : jsstring :=
  div100_toFixed2 (StringToNumber (substr (barcode this) 9 10)).

Definition prettyAmount (this : Boleto) : jsstring :=
  match currency this with
  | CurrencyString s =>
      if bool_decide (s = str "Unknown") then amount this
      else (* a string has no [symbol] or [decimal] property *)
        str "undefined " ++ replace_first (str ".") (str "undefined") (amount this)
  | CurrencyObject _ symbol decimal =>
      symbol ++ str " " ++ replace_first (str ".") decimal (amount this)
  end.


(** ** The operations as the specification words them *)

(** The weight of position [i]: 2,3,...,9 and again. *)
Definition weight (i : nat) : Z := Z.of_nat (i mod 8) + 2.

(** The sum of [digit * weight] over the positions from [i] on. *)
Fixpoint weighted_sum (i : nat) (d : list Z) : Z :=
  match d with
  | [] => 0
  | x :: d' => x * weight i + weighted_sum (S i) d'
  end.

(** Reverse, weight, sum, [(11 - (sum mod 11)) mod 10], and 1 for 0. *)
Definition modulo11Digit (d : list Z) : Z :=
  let sum := weighted_sum 0 (reverse d) in
  let r := (11 - sum mod 11) mod 10 in
  if r =? 0 then 1 else r.

(** Fixed-width re-slicing: the consecutive groups of the given widths. *)
Fixpoint groups (widths : list nat) (s : jsstring) : list jsstring :=
  match widths with
  | [] => []
  | w :: ws => take w s :: groups ws (drop w s)
  end.

Definition group (g : list jsstring) (k : nat) : jsstring :=
  default [] (g !! k).

(** Widths 4,1,5,1,10,1,10,1,15 read as A, skip, B, skip, C, skip, D, skip,
    E, reassembled as A + E + B + C + D. *)
Definition toBarcode_skip_after_A (s : jsstring) : jsstring :=
  let g := groups [4; 1; 5; 1; 10; 1; 10; 1; 15]%nat s in
  group g 0 ++ group g 8 ++ group g 2 ++ group g 4 ++ group g 6.

(** Widths 4,5,1,10,1,10,1,15 read as A, B, skip, C, skip, D, skip, E,
    reassembled as A + E + B + C + D. *)
Definition toBarcode (s : jsstring) : jsstring :=
  let g := groups [4; 5; 1; 10; 1; 10; 1; 15]%nat s in
  group g 0 ++ group g 7 ++ group g 1 ++ group g 3 ++ group g 5.

(** The groups joined with the separators, in order. *)
Fixpoint join_with (seps : list jsstring) (g : list jsstring) : jsstring :=
  match g with
  | [] => []
  | [x] => x
  | x :: g' =>
      match seps with
      | sep :: seps' => x ++ sep ++ join_with seps' g'
      | [] => x ++ join_with [] g'
      end
  end.

(** Widths 5,5,5,6,5,6,1,14, joined with dot, space, dot, space, dot,
    space, space. *)
Definition prettyPrint (s : jsstring) : jsstring :=
  join_with [str "."; str " "; str "."; str " "; str "."; str " "; str " "]
            (groups [5; 5; 5; 6; 5; 6; 1; 14]%nat s).

(** The mask of [prettyNumber]. *)
Definition mask : jsstring :=
  str "NNNNN.NNNNN NNNNN.NNNNNN NNNNN.NNNNNN N NNNNNNNNNNNNNN".

(** A string fits a mask when it has a digit wherever the mask has [N] and
    the mask's own character everywhere else. *)
Fixpoint fits_mask (mask s : jsstring) : bool :=
  match mask, s with
  | [], [] => true
  | m :: mask', c :: s' =>
      (if (m =? 78)%N then is_digit c else (c =? m)%N) && fits_mask mask' s'
  | _, _ => false
  end.

(** The separators of the mask: the dot and the space. *)
Definition is_separator (c : char) : bool := ((c =? 46) || (c =? 32))%N.

Definition number_of_separators (s : jsstring) : nat :=
  length (List.filter is_separator s).

Definition strip_separators (s : jsstring) : jsstring :=
  List.filter (fun c => negb (is_separator c)) s.

(** Every occurrence of the code unit [c] replaced by [d]. *)
Definition replace_char (c d : char) (s : jsstring) : jsstring :=
  map (fun x => if (x =? c)%N then d else x) s.

(** The calendar: the day after [y]-[m]-[d]. *)
Definition next_day (ymd : Z * Z * Z) : Z * Z * Z :=
  let '(y, m, d) := ymd in
  if d <? DaysInMonth y m then (y, m, d + 1)
  else if m <? 12 then (y, m + 1, 1)
  else (y + 1, 1, 1).

Definition add_days (n : nat) (ymd : Z * Z * Z) : Z * Z * Z :=
  Nat.iter n next_day ymd.

Definition day_number (ymd : Z * Z * Z) : Z :=
  let '(y, m, d) := ymd in MakeDay y m d.

(** The [Date] of UTC midnight of a calendar day. *)
Definition Date_of_day (ymd : Z * Z * Z) : Date :=
  {| getTime := Some (day_number ymd * msPerDay) |}.

(** ** Predicates and sample inputs of the proofs *)

Definition single_digit (x : Z) : Prop := 0 <= x <= 9.

(** Strings of digits. *)
Definition all_digits (s : jsstring) : Prop :=
  Forall (fun c => is_digit c = true) s.

(** The checksum relation of a stored number: the check digit of the
    barcode without its position 4 is the digit at position 4. *)
Definition checksum_matches (s : jsstring) : Prop :=
  exists c,
    barcode {| bankSlipNumber := s |} !! 4%nat = Some c
    /\ modulo11Digit
         (digit_value <$> delete 4%nat (barcode {| bankSlipNumber := s |}))
       = digit_value c.

(** The numeric readings of the elements of an array. *)
Definition reads (a : array) (d : list Z) : Prop :=
  Forall2 (fun e x => ToNumber (Some e) = Some x) a d.

(** The captured groups of a pattern on a string it matches. *)
Fixpoint slices (p : list item) (s : jsstring) : list jsstring :=
  match p with
  | [] => []
  | Cap n :: p' => take n s :: slices p' (drop n s)
  | Skip n :: p' => slices p' (drop n s)
  end.

Definition total_width (p : list item) : nat :=
  foldr (fun it n => (width it + n)%nat) 0%nat p.

(** [days_agree k ymd day]: the [k] calendar days from [ymd] on have the
    day numbers [day], [day + 1], ... *)
Fixpoint days_agree (k : nat) (ymd : Z * Z * Z) (day : Z) : bool :=
  match k with
  | O => true
  | S k' => (day_number ymd =? day) && days_agree k' (next_day ymd) (day + 1)
  end.

(** A bank-slip number that passes validation, written with its mask
    34195.00008 01233.203189 64221.470004 5 84410000002000 *)
Definition sample_number : jsstring :=
  str "34195000080123320318964221470004584410000002000".

(** The same number with the due-date field set to 0000 and to 0001, and
    the check digit set to match. *)
Definition sample_day_0 : jsstring :=
  str "34195000080123320318964221470004500000000002000".

Definition sample_day_1 : jsstring :=
  str "34195000080123320318964221470004100010000002000".

(** The same number with the currency digit set to 0, and the check digit
    set to match. *)
Definition sample_currency_0 : jsstring :=
  str "34105000080123320318964221470004984410000002000".

(** The sequence that [modulo11] works on: the code units of a string, or
    the current contents of an array. *)
Definition contents (number : value) (h : heap) : option array :=
  match number with
  | VStr s => Some (EChr <$> s)
  | VArr r => h !! r
  end.

(** * Properties *)

(** ** The store *)

Lemma Array_reverse_run (h : heap) (r : ref) (a : array) :
  h !! r = Some a ->
  Array_reverse r h = (r, <[r := reverse a]> h).
Proof.
  intros Hr. unfold Array_reverse, bind, Array_get, Array_set, ret.
  now rewrite Hr.
Qed.

Lemma modulo11_array_run (h : heap) (r : ref) (a : array) :
  h !! r = Some a ->
  modulo11 (VArr r) h =
    (modulo11_result (modulo11_for (length a) (reverse a) 0 (Some 0)),
     <[r := reverse a]> h).
Proof.
  intros Hr. unfold modulo11. unfold bind at 1. unfold ret at 1.
  unfold bind at 1. rewrite (Array_reverse_run _ _ _ Hr).
  unfold bind, Array_get, ret.
  rewrite list_lookup_insert_eq by (eapply lookup_lt_Some; eassumption).
  simpl. now rewrite length_reverse.
Qed.

Lemma modulo11_string_run (h : heap) (s : jsstring) :
  modulo11 (VStr s) h =
    (modulo11_result
       (modulo11_for (length s) (reverse (EChr <$> s)) 0 (Some 0)),
     h ++ [reverse (EChr <$> s)]).
Proof.
  unfold modulo11. unfold bind at 1. unfold String_split, Array_new.
  unfold bind at 1.
  rewrite (Array_reverse_run _ _ (EChr <$> s))
    by (now apply list_lookup_middle).
  unfold bind, Array_get, ret.
  replace (length h) with (length h + 0)%nat by lia.
  rewrite insert_app_r. simpl.
  rewrite Nat.add_0_r, list_lookup_middle by reflexivity.
  simpl. now rewrite length_reverse, length_fmap.
Qed.

(** ** The loop of modulo11 *)

Lemma weight_rem (i : nat) :
  num_add (num_rem (Some (Z.of_nat i)) (Some 8)) (Some 2) = Some (weight i).
Proof.
  unfold weight, num_rem, num_add. change (8 =? 0) with false. cbv iota.
  rewrite Z.rem_mod_nonneg by lia.
  now rewrite (Nat2Z.inj_mod i 8).
Qed.

Lemma modulo11_for_sum (pre suf : array) (d : list Z) (sum : Z) :
  reads suf d ->
  modulo11_for (length suf) (pre ++ suf) (length pre) (Some sum)
  = Some (sum + weighted_sum (length pre) d).
Proof.
  intros H. revert pre sum.
  induction H as [|e x suf d He _ IH]; intros pre sum.
  - simpl. f_equal. lia.
  - cbn [length modulo11_for weighted_sum].
    assert (Hlt : (length pre <? length (pre ++ e :: suf))%nat = true).
    { apply Nat.ltb_lt. rewrite length_app. simpl. lia. }
    rewrite Hlt. unfold modulo11_step.
    rewrite weight_rem, list_lookup_middle by reflexivity.
    rewrite He. cbn [num_mul num_add].
    replace (pre ++ e :: suf) with ((pre ++ [e]) ++ suf)
      by (now rewrite <- app_assoc).
    replace (length pre + 1)%nat with (length (pre ++ [e]))
      by (rewrite length_app; reflexivity).
    rewrite IH. f_equal.
    rewrite length_app. simpl. rewrite Nat.add_1_r. lia.
Qed.

(** The loop leaves by its condition: steps beyond [digits.length] change
    nothing. *)
Lemma modulo11_for_steps (a : array) (n : nat) :
  forall m i sum,
  (length a - i <= n)%nat -> (length a - i <= m)%nat ->
  modulo11_for n a i sum = modulo11_for m a i sum.
Proof.
  induction n as [|n IH]; intros m i sum Hn Hm.
  - destruct m as [|m]; [reflexivity|]. cbn [modulo11_for].
    now rewrite (proj2 (Nat.ltb_ge i (length a))) by lia.
  - cbn [modulo11_for]. destruct (Nat.ltb_spec i (length a)) as [Hi|Hi].
    + destruct m as [|m]; [lia|]. cbn [modulo11_for].
      rewrite (proj2 (Nat.ltb_lt i (length a)) Hi).
      apply IH; lia.
    + destruct m as [|m]; [reflexivity|]. cbn [modulo11_for].
      now rewrite (proj2 (Nat.ltb_ge i (length a))) by lia.
Qed.

Lemma weighted_sum_nonneg (d : list Z) :
  Forall single_digit d -> forall i, 0 <= weighted_sum i d.
Proof.
  induction 1 as [|x d Hx _ IH]; intros i; simpl; [lia|].
  specialize (IH (S i)). unfold single_digit, weight in *.
  assert (0 <= Z.of_nat (i mod 8)) by lia. nia.
Qed.

Lemma modulo11_result_digit (sum : Z) :
  0 <= sum ->
  modulo11_result (Some sum)
  = Some (let r := (11 - sum mod 11) mod 10 in if r =? 0 then 1 else r).
Proof.
  intros Hs. unfold modulo11_result. cbn [num_rem num_sub Z.eqb].
  rewrite (Z.rem_mod_nonneg sum 11) by lia.
  pose proof (Z.mod_pos_bound sum 11 ltac:(lia)).
  rewrite (Z.rem_mod_nonneg (11 - sum mod 11) 10) by lia.
  cbn zeta.
  pose proof (Z.mod_pos_bound (11 - sum mod 11) 10 ltac:(lia)).
  destruct ((11 - sum mod 11) mod 10) eqn:E; simpl; try reflexivity; lia.
Qed.

(** Whatever the sum, NaN included, the result is one of 1..9. *)
Lemma modulo11_result_range (sum : jsnum) :
  exists v, modulo11_result sum = Some v /\ 1 <= v <= 9.
Proof.
  destruct sum as [s|]; [|exists 1; split; [reflexivity|lia]].
  unfold modulo11_result. cbn [num_rem num_sub Z.eqb].
  pose proof (Z.rem_bound_abs s 11 ltac:(lia)) as Hb.
  assert (Hr : -10 <= Z.rem s 11 <= 10) by lia.
  pose proof (Z.rem_bound_pos (11 - Z.rem s 11) 10 ltac:(lia) ltac:(lia)).
  destruct (Z.rem (11 - Z.rem s 11) 10) eqn:E; simpl.
  - exists 1. split; [reflexivity|lia].
  - eexists. split; [reflexivity|lia].
  - lia.
Qed.

Lemma reads_reverse (a : array) (d : list Z) :
  reads a d -> reads (reverse a) (reverse d).
Proof.
  induction 1; [constructor|].
  rewrite !reverse_cons. apply Forall2_app; [assumption|].
  now constructor.
Qed.

Lemma modulo11Digit_range (d : list Z) : 1 <= modulo11Digit d <= 9.
Proof.
  unfold modulo11Digit. cbn zeta.
  pose proof (Z.mod_pos_bound (11 - weighted_sum 0 (reverse d) mod 11) 10
                ltac:(lia)).
  destruct (Z.eqb_spec ((11 - weighted_sum 0 (reverse d) mod 11) mod 10) 0);
    lia.
Qed.

(** The loop and the final expression on an array whose elements read as
    single digits. *)
Lemma modulo11_on_digits (a : array) (d : list Z) :
  reads a d -> Forall single_digit d ->
  modulo11_result (modulo11_for (length a) (reverse a) 0 (Some 0))
  = Some (modulo11Digit d).
Proof.
  intros Ha Hd.
  pose proof (modulo11_for_sum [] (reverse a) (reverse d) 0
                (reads_reverse _ _ Ha)) as H.
  rewrite length_reverse in H. simpl in H. rewrite H.
  rewrite modulo11_result_digit; [reflexivity|].
  apply weighted_sum_nonneg. now apply Forall_reverse.
Qed.

Lemma reads_ENum (d : list Z) : reads (ENum <$> d) d.
Proof. induction d; constructor; auto. Qed.

(** C1: on an array holding a non-empty sequence of single-digit integers,
    [modulo11] returns what the specification's wording computes (reverse,
    weights [(i mod 8) + 2], sum, [(11 - sum mod 11) mod 10], 1 in place of
    0), and so never 0. *)
Theorem modulo11_is_modulo11Digit (d : list Z) (h : heap) (r : ref) :
  d <> [] -> Forall single_digit d -> h !! r = Some (ENum <$> d) ->
  fst (modulo11 (VArr r) h) = Some (modulo11Digit d)
  /\ fst (modulo11 (VArr r) h) <> Some 0.
Proof.
  intros _ Hd Hr.
  rewrite (modulo11_array_run _ _ _ Hr). cbn [fst].
  rewrite (modulo11_on_digits _ d (reads_ENum d) Hd).
  split; [reflexivity|].
  pose proof (modulo11Digit_range d). intros [=]. lia.
Qed.

Lemma modulo11_is_modulo11Digit_witness :
  fst (modulo11 (VArr 0%nat) [ENum <$> [1; 2; 3; 4; 5; 6; 7; 8; 9]])
  = Some (modulo11Digit [1; 2; 3; 4; 5; 6; 7; 8; 9])
  /\ fst (modulo11 (VArr 0%nat) [ENum <$> [1; 2; 3; 4; 5; 6; 7; 8; 9]])
     <> Some 0.
Proof.
  apply (modulo11_is_modulo11Digit [1; 2; 3; 4; 5; 6; 7; 8; 9]).
  - discriminate.
  - unfold single_digit. repeat constructor; lia.
  - reflexivity.
Defined.

(** ** The two patterns *)

Lemma forallb_digits (s : jsstring) :
  Forall (fun c => is_digit c = true) s -> forallb is_digit s = true.
Proof. induction 1 as [|c s Hc _ IH]; simpl; [reflexivity|]. now rewrite Hc. Qed.

Lemma regex_exec_digits (p : list item) (s : jsstring) :
  Forall (fun c => is_digit c = true) s ->
  length s = total_width p ->
  regex_exec p s = Some (slices p s).
Proof.
  revert s. induction p as [|it p IH]; intros s Hd Hl.
  - destruct s; [reflexivity|discriminate].
  - cbn [total_width foldr] in Hl. fold (total_width p) in Hl.
    cbn [regex_exec].
    assert (Hg : length (take (width it) s) = width it)
      by (rewrite length_take; lia).
    rewrite Hg, Nat.eqb_refl.
    assert (Hf : forallb is_digit (take (width it) s) = true).
    { apply forallb_digits. now apply Forall_take. }
    rewrite Hf. cbn [andb].
    rewrite IH.
    + destruct it; reflexivity.
    + now apply Forall_drop.
    + rewrite length_drop. lia.
Qed.

Lemma replace_regex_digits (p : list item) (tpl : list piece) (s : jsstring) :
  Forall (fun c => is_digit c = true) s ->
  length s = total_width p ->
  replace_regex p tpl s = expand (slices p s) tpl.
Proof.
  intros Hd Hl. unfold replace_regex. now rewrite regex_exec_digits.
Qed.

Lemma barcode_slices (s : jsstring) :
  Forall (fun c => is_digit c = true) s -> length s = 47%nat ->
  barcode {| bankSlipNumber := s |}
  = take 4 s ++ take 15 (drop 32 s) ++ take 5 (drop 4 s)
    ++ take 10 (drop 10 s) ++ take 10 (drop 21 s).
Proof.
  intros Hd Hl. unfold barcode. cbn [bankSlipNumber].
  rewrite replace_regex_digits by assumption.
  cbn. rewrite !drop_drop. cbn. now rewrite !app_nil_r.
Qed.

Lemma prettyNumber_slices (s : jsstring) :
  Forall (fun c => is_digit c = true) s -> length s = 47%nat ->
  prettyNumber {| bankSlipNumber := s |}
  = take 5 s ++ str "." ++ take 5 (drop 5 s) ++ str " "
    ++ take 5 (drop 10 s) ++ str "." ++ take 6 (drop 15 s) ++ str " "
    ++ take 5 (drop 21 s) ++ str "." ++ take 6 (drop 26 s) ++ str " "
    ++ take 1 (drop 32 s) ++ str " " ++ take 14 (drop 33 s).
Proof.
  intros Hd Hl. unfold prettyNumber. cbn [bankSlipNumber].
  rewrite replace_regex_digits by assumption.
  cbn. rewrite !drop_drop. cbn. now rewrite !app_nil_r.
Qed.

(** A string of 47 code units cut into consecutive pieces. *)
Lemma drop_split (k n : nat) (s : jsstring) :
  drop k s = take n (drop k s) ++ drop (k + n) s.
Proof. now rewrite <- drop_drop, take_drop. Qed.

Lemma pieces_of_47 (s : jsstring) :
  length s = 47%nat ->
  take 5 s ++ take 5 (drop 5 s) ++ take 5 (drop 10 s) ++ take 6 (drop 15 s)
  ++ take 5 (drop 21 s) ++ take 6 (drop 26 s) ++ take 1 (drop 32 s)
  ++ take 14 (drop 33 s) = s.
Proof.
  intros Hl.
  rewrite (take_ge (drop 33 s)) by (rewrite length_drop; lia).
  rewrite <- (drop_split 32 1), <- (drop_split 26 6), <- (drop_split 21 5).
  rewrite <- (drop_split 15 6), <- (drop_split 10 5), <- (drop_split 5 5).
  apply take_drop.
Qed.

Lemma filter_digits_id (f : N -> bool) (s : jsstring) :
  (forall c, is_digit c = true -> f c = true) ->
  all_digits s -> List.filter f s = s.
Proof.
  intros Hf. induction 1 as [|c s Hc _ IH]; simpl; [reflexivity|].
  now rewrite (Hf c Hc), IH.
Qed.

Lemma filter_digits_nil (f : N -> bool) (s : jsstring) :
  (forall c, is_digit c = true -> f c = false) ->
  all_digits s -> List.filter f s = [].
Proof.
  intros Hf. induction 1 as [|c s Hc _ IH]; simpl; [reflexivity|].
  now rewrite (Hf c Hc), IH.
Qed.

Lemma digit_not_separator (c : N) : is_digit c = true -> is_separator c = false.
Proof.
  unfold is_digit, is_separator. intros H.
  apply andb_prop in H as [H1 H2].
  apply N.leb_le in H1. apply N.leb_le in H2.
  apply orb_false_intro; apply N.eqb_neq; lia.
Qed.

(** ** barcode *)

(** C2, as the code has it: on every 47-digit string [barcode] cuts the
    groups (A:4)(B:5)(skip 1)(C:10)(skip 1)(D:10)(skip 1)(E:15), with no
    skip between A and B, and returns the 44 digits A + E + B + C + D. *)
Theorem barcode_is_toBarcode (s : jsstring) :
  all_digits s -> length s = 47%nat ->
  barcode {| bankSlipNumber := s |} = toBarcode s
  /\ length (barcode {| bankSlipNumber := s |}) = 44%nat
  /\ all_digits (barcode {| bankSlipNumber := s |}).
Proof.
  intros Hd Hl. rewrite (barcode_slices s Hd Hl). repeat split.
  - unfold toBarcode. cbn. now rewrite !drop_drop.
  - rewrite !length_app, !length_take, !length_drop. lia.
  - unfold all_digits in *. repeat (apply Forall_app; split);
      repeat first [apply Forall_take | apply Forall_drop]; exact Hd.
Qed.

Lemma sample_number_digits : all_digits sample_number.
Proof.
  apply Forall_forall. intros c Hc. apply list_elem_of_In in Hc.
  revert c Hc. apply forallb_forall. reflexivity.
Qed.

Lemma barcode_is_toBarcode_witness :
  barcode {| bankSlipNumber := sample_number |} = toBarcode sample_number
  /\ length (barcode {| bankSlipNumber := sample_number |}) = 44%nat
  /\ all_digits (barcode {| bankSlipNumber := sample_number |}).
Proof.
  apply (barcode_is_toBarcode sample_number).
  - exact sample_number_digits.
  - reflexivity.
Defined.

(** C2, as the specification words it, fails on the sample number: the
    widths 4,1,5,1,10,1,10,1,15 add up to 48, so the last group runs short
    and the groups B, C, D start one digit late. *)
Lemma barcode_is_not_skip_after_A :
  length sample_number = 47%nat
  /\ forallb is_digit sample_number = true
  /\ barcode {| bankSlipNumber := sample_number |}
     <> toBarcode_skip_after_A sample_number
  /\ length (toBarcode_skip_after_A sample_number) <> 44%nat.
Proof.
  split; [reflexivity|]. split; [reflexivity|].
  split; intros H; vm_compute in H; discriminate H.
Qed.

(** ** prettyNumber *)

Lemma fits_mask_cons_N (m s : jsstring) (c : N) :
  is_digit c = true -> fits_mask m s = true ->
  fits_mask (78%N :: m) (c :: s) = true.
Proof. intros Hc Hm. cbn. now rewrite Hc, Hm. Qed.

Lemma fits_mask_cons_sep (m s : jsstring) (c : N) :
  (c =? 78)%N = false -> fits_mask m s = true ->
  fits_mask (c :: m) (c :: s) = true.
Proof. intros Hc Hm. cbn. now rewrite Hc, N.eqb_refl, Hm. Qed.

(** C6: on every 47-digit string [prettyNumber] cuts the groups of widths
    5,5,5,6,5,6,1,14 and joins them with [.], space, [.], space, [.], space,
    space, which gives the mask
    NNNNN.NNNNN NNNNN.NNNNNN NNNNN.NNNNNN N NNNNNNNNNNNNNN. *)
Theorem prettyNumber_is_prettyPrint (s : jsstring) :
  all_digits s -> length s = 47%nat ->
  prettyNumber {| bankSlipNumber := s |} = prettyPrint s
  /\ fits_mask mask (prettyNumber {| bankSlipNumber := s |}) = true.
Proof.
  intros Hd Hl. rewrite (prettyNumber_slices s Hd Hl). split.
  - unfold prettyPrint. cbn. now rewrite !drop_drop.
  - do 47 (destruct s as [|? s]; [discriminate Hl|]).
    destruct s; [|discriminate Hl].
    unfold all_digits in Hd.
    repeat (apply Forall_cons in Hd; destruct Hd as [? Hd]).
    cbn [take drop app str list_ascii_of_string map]. unfold mask.
    cbn [str list_ascii_of_string map N_of_ascii N_of_digits N.add N.mul
         Pos.add Pos.mul Pos.succ].
    repeat first
      [ apply fits_mask_cons_N; [assumption|]
      | apply fits_mask_cons_sep; [reflexivity|] ].
    reflexivity.
Qed.

Lemma prettyNumber_is_prettyPrint_witness :
  prettyNumber {| bankSlipNumber := sample_number |}
  = prettyPrint sample_number
  /\ fits_mask mask (prettyNumber {| bankSlipNumber := sample_number |})
     = true.
Proof.
  apply (prettyNumber_is_prettyPrint sample_number).
  - exact sample_number_digits.
  - reflexivity.
Defined.

Section PrettyNumberPieces.
Variable s : list N.
Hypothesis Hd : all_digits s.

Lemma piece_digits (k n : nat) : all_digits (take n (drop k s)).
Proof. apply Forall_take, Forall_drop, Hd. Qed.

Lemma piece_separators (k n : nat) :
  List.filter is_separator (take n (drop k s)) = [].
Proof.
  apply filter_digits_nil; [apply digit_not_separator|apply piece_digits].
Qed.

Lemma piece_stripped (k n : nat) :
  List.filter (fun c => negb (is_separator c)) (take n (drop k s))
  = take n (drop k s).
Proof.
  apply filter_digits_id; [|apply piece_digits].
  intros c Hc. now rewrite (digit_not_separator c Hc).
Qed.
End PrettyNumberPieces.

(** C5, as the code has it: on every 47-digit string the output of
    [prettyNumber] has the 47 digits and 7 separators, so its length is
    47 + number_of_separators = 54, and stripping the separators gives the
    47 digits back. *)
Theorem prettyNumber_round_trip (s : jsstring) :
  all_digits s -> length s = 47%nat ->
  length (prettyNumber {| bankSlipNumber := s |})
  = (47 + number_of_separators (prettyNumber {| bankSlipNumber := s |}))%nat
  /\ number_of_separators (prettyNumber {| bankSlipNumber := s |}) = 7%nat
  /\ strip_separators (prettyNumber {| bankSlipNumber := s |}) = s.
Proof.
  intros Hd Hl.
  assert (Hn : number_of_separators (prettyNumber {| bankSlipNumber := s |})
               = 7%nat).
  { unfold number_of_separators. rewrite (prettyNumber_slices s Hd Hl).
    change (take 5 s) with (take 5 (drop 0 s)).
    rewrite !List.filter_app, !(piece_separators s Hd). reflexivity. }
  split; [|split; [exact Hn|]].
  - rewrite Hn, (prettyNumber_slices s Hd Hl).
    rewrite !length_app, !length_take, !length_drop, Hl. reflexivity.
  - unfold strip_separators. rewrite (prettyNumber_slices s Hd Hl).
    change (take 5 s) with (take 5 (drop 0 s)).
    rewrite !List.filter_app, !(piece_stripped s Hd).
    cbn [str list_ascii_of_string map List.filter app].
    change (take 5 (drop 0 s)) with (take 5 s).
    cbn. now apply pieces_of_47.
Qed.

Lemma prettyNumber_round_trip_witness :
  length (prettyNumber {| bankSlipNumber := sample_number |})
  = (47 + number_of_separators
            (prettyNumber {| bankSlipNumber := sample_number |}))%nat
  /\ number_of_separators (prettyNumber {| bankSlipNumber := sample_number |})
     = 7%nat
  /\ strip_separators (prettyNumber {| bankSlipNumber := sample_number |})
     = sample_number.
Proof.
  apply (prettyNumber_round_trip sample_number).
  - exact sample_number_digits.
  - reflexivity.
Defined.

(** C5, as the specification words it, fails on the sample number: the
    output has 54 code units, 7 of them separators, and 54 is not 46 + 7. *)
Lemma prettyNumber_length_is_not_46_plus_separators :
  length sample_number = 47%nat
  /\ forallb is_digit sample_number = true
  /\ length (prettyNumber {| bankSlipNumber := sample_number |})
     <> (46 + number_of_separators
               (prettyNumber {| bankSlipNumber := sample_number |}))%nat.
Proof.
  split; [reflexivity|]. split; [reflexivity|].
  intros H. vm_compute in H. discriminate H.
Qed.

(** ** valid *)

Lemma lookup_fresh (h : heap) (a : array) (t : heap) :
  (h ++ a :: t) !! length h = Some a.
Proof. now apply list_lookup_middle. Qed.

Lemma insert_fresh (h : heap) (a b : array) (t : heap) :
  <[length h := b]> (h ++ a :: t) = h ++ b :: t.
Proof.
  rewrite insert_app_r_alt by lia. now rewrite Nat.sub_diag.
Qed.

Lemma join_one_char (l : jsstring) :
  join (str ",") (elem_toString <$> (EChr <$> take 1 l)) = take 1 l.
Proof. destruct l as [|c l]; [reflexivity|]. cbn. now rewrite take_0. Qed.

(** The run of [valid] on a stored number of length 47: the two arrays it
    allocates are the only change to the store. *)
Lemma valid_run (this : Boleto) (h : heap) :
  length (bankSlipNumber this) = 47%nat ->
  let bc := barcode this in
  let rest := EChr <$> delete 4%nat bc in
  valid this h =
    (bool_decide
       (Number_toString
          (modulo11_result
             (modulo11_for (length rest) (reverse rest) 0 (Some 0)))
        = take 1 (drop 4 bc)),
     h ++ [reverse rest; EChr <$> take 1 (drop 4 bc)]).
Proof.
  intros Hl bc rest. unfold valid. rewrite Hl. cbn [Nat.eqb negb].
  fold bc. unfold bind at 1. unfold String_split, Array_new.
  unfold bind at 1. unfold Array_splice. unfold bind at 1.
  unfold Array_get at 1. rewrite lookup_fresh. cbn [default from_option id].
  unfold bind at 1. unfold Array_set at 1. rewrite insert_fresh.
  unfold Array_new.
  assert (Hrest : take 4 (EChr <$> bc) ++ drop (4 + 1) (EChr <$> bc) = rest).
  { unfold rest. now rewrite delete_take_drop, fmap_app, fmap_take, fmap_drop. }
  rewrite Hrest. unfold bind at 1.
  rewrite <- app_assoc. cbn [app].
  rewrite (modulo11_array_run _ _ rest) by apply lookup_fresh.
  rewrite insert_fresh.
  unfold Array_toString, Array_get, ret, bind.
  replace (length (h ++ [rest]))%nat with (length (h ++ [reverse rest]))
    by (now rewrite !length_app).
  replace (h ++ [reverse rest; take 1 (drop 4 (EChr <$> bc))])
    with ((h ++ [reverse rest]) ++ [take 1 (drop 4 (EChr <$> bc))])
    by (now rewrite <- app_assoc).
  rewrite lookup_fresh. cbn [default from_option id].
  rewrite <- fmap_drop, <- fmap_take, join_one_char.
  now rewrite <- app_assoc.
Qed.

Lemma valid_run_short (this : Boleto) (h : heap) :
  length (bankSlipNumber this) <> 47%nat -> valid this h = (false, h).
Proof.
  intros Hl. unfold valid.
  now rewrite (proj2 (Nat.eqb_neq _ _) Hl).
Qed.

Lemma Number_toString_digit (v : Z) :
  1 <= v <= 9 -> Number_toString (Some v) = [Z.to_N (48 + v)].
Proof.
  intros Hv.
  assert (v = 1 \/ v = 2 \/ v = 3 \/ v = 4 \/ v = 5 \/ v = 6 \/ v = 7
          \/ v = 8 \/ v = 9) as Hc by lia.
  repeat (destruct Hc as [->|Hc]; [reflexivity|]). now subst.
Qed.

(** The decimal string of a result of [modulo11] is the one code unit [c]
    exactly when the result is the digit that [c] writes. *)
Lemma result_is_char (sum : jsnum) (c : N) :
  Number_toString (modulo11_result sum) = [c]
  <-> modulo11_result sum = Some (digit_value c).
Proof.
  destruct (modulo11_result_range sum) as (v & -> & Hv).
  rewrite (Number_toString_digit v Hv). unfold digit_value. split.
  - intros [= <-]. f_equal. lia.
  - intros [= ->]. f_equal. lia.
Qed.

Lemma take_1_drop_lookup (l : jsstring) (k : nat) (c : N) :
  take 1 (drop k l) = [c] <-> l !! k = Some c.
Proof.
  rewrite <- (Nat.add_0_r k) at 2. rewrite <- lookup_drop.
  destruct (drop k l) as [|x t]; cbn; [split; discriminate|].
  rewrite take_0. split; intros [= ->]; reflexivity.
Qed.

(** What [valid] decides, on any store. *)
Lemma valid_true_iff (this : Boleto) (h h' : heap) :
  fst (valid this h) = true
  <-> length (bankSlipNumber this) = 47%nat
      /\ exists c, barcode this !! 4%nat = Some c
           /\ fst (modulo11 (VStr (delete 4%nat (barcode this))) h')
              = Some (digit_value c).
Proof.
  destruct (decide (length (bankSlipNumber this) = 47%nat)) as [Hl|Hl].
  2:{ rewrite (valid_run_short _ _ Hl). cbn. split; [discriminate|tauto]. }
  rewrite (valid_run _ _ Hl), modulo11_string_run. cbn [fst].
  rewrite length_fmap, bool_decide_eq_true. split.
  - intros H. split; [exact Hl|].
    destruct (modulo11_result_range
                (modulo11_for (length (delete 4%nat (barcode this)))
                   (reverse (EChr <$> delete 4%nat (barcode this))) 0
                   (Some 0))) as (v & Hv & Hr).
    pose proof H as H1. rewrite Hv, (Number_toString_digit v Hr) in H1.
    exists (Z.to_N (48 + v)). split.
    + apply take_1_drop_lookup. now symmetry.
    + apply result_is_char. now rewrite H, <- H1.
  - intros (_ & c & Hc & Hm).
    apply result_is_char in Hm. rewrite Hm. symmetry.
    now apply take_1_drop_lookup.
Qed.

Lemma valid_extends_store (this : Boleto) (h : heap) :
  exists fresh, snd (valid this h) = h ++ fresh.
Proof.
  destruct (decide (length (bankSlipNumber this) = 47%nat)) as [Hl|Hl].
  - rewrite (valid_run _ _ Hl). eexists. reflexivity.
  - rewrite (valid_run_short _ _ Hl). exists []. cbn. now rewrite app_nil_r.
Qed.

Lemma valid_store_independent (this : Boleto) (h h' : heap) :
  fst (valid this h) = fst (valid this h').
Proof.
  destruct (decide (length (bankSlipNumber this) = 47%nat)) as [Hl|Hl].
  - now rewrite !(valid_run _ _ Hl).
  - now rewrite !(valid_run_short _ _ Hl).
Qed.

(** C3: [valid()] answers true exactly when the stored string has length 47
    and [modulo11] of the barcode without its character at index 4 is the
    digit written at index 4; it leaves the object and every array of the
    store as they were (it only allocates), and a repeated call gives the
    same answer. *)
Theorem valid_iff_length_and_checksum (this : Boleto) (h : heap) :
  (fst (valid this h) = true
   <-> length (bankSlipNumber this) = 47%nat
       /\ exists c, barcode this !! 4%nat = Some c
            /\ fst (modulo11 (VStr (delete 4%nat (barcode this))) h)
               = Some (digit_value c))
  /\ (exists fresh, snd (valid this h) = h ++ fresh)
  /\ (forall r a, h !! r = Some a -> snd (valid this h) !! r = Some a)
  /\ fst (valid this (snd (valid this h))) = fst (valid this h).
Proof.
  split; [apply valid_true_iff|]. split; [apply valid_extends_store|]. split.
  - intros r a Hr. destruct (valid_extends_store this h) as [fresh ->].
    now apply lookup_app_l_Some.
  - apply valid_store_independent.
Qed.

Lemma valid_iff_length_and_checksum_witness :
  fst (valid {| bankSlipNumber := sample_number |} [[ENum 1; ENum 2]]) = true
  /\ snd (valid {| bankSlipNumber := sample_number |} [[ENum 1; ENum 2]])
     !! 0%nat = Some [ENum 1; ENum 2].
Proof.
  pose proof (valid_iff_length_and_checksum
                {| bankSlipNumber := sample_number |} [[ENum 1; ENum 2]])
    as (Hiff & _ & Hframe & _).
  split.
  - apply Hiff. split; [reflexivity|].
    exists 53%N. split; reflexivity.
  - apply Hframe. reflexivity.
Defined.

(** ** The constructor *)

Lemma filter_is_digit (s : jsstring) : all_digits (List.filter is_digit s).
Proof.
  induction s as [|c s IH]; simpl; [constructor|].
  destruct (is_digit c) eqn:Hc; [constructor|]; assumption.
Qed.

Lemma constructor_run (input : jsstring) (h : heap) :
  let this := {| bankSlipNumber := List.filter is_digit input |} in
  fst (constructor input h)
  = if fst (valid this h) then inr this
    else inl (Error (str "Invalid bank slip number")).
Proof.
  intros this. unfold constructor, bind. fold this.
  destruct (valid this h) as [[|] h']; reflexivity.
Qed.

Lemma digit_reads (c : N) :
  is_digit c = true ->
  ToNumber (Some (EChr c)) = Some (digit_value c)
  /\ single_digit (digit_value c).
Proof.
  unfold is_digit. intros H. apply andb_prop in H as [H1 H2].
  apply N.leb_le in H1. apply N.leb_le in H2.
  assert (c = 48 \/ c = 49 \/ c = 50 \/ c = 51 \/ c = 52 \/ c = 53
          \/ c = 54 \/ c = 55 \/ c = 56 \/ c = 57)%N as Hc by lia.
  unfold single_digit.
  repeat (destruct Hc as [->|Hc];
          [split; [reflexivity|cbv; split; intros H; discriminate H]|]).
  subst. split; [reflexivity|cbv; split; intros H; discriminate H].
Qed.

Lemma digits_read (s : jsstring) :
  all_digits s ->
  reads (EChr <$> s) (digit_value <$> s)
  /\ Forall single_digit (digit_value <$> s).
Proof.
  induction 1 as [|c s Hc _ [IH1 IH2]]; [split; constructor|].
  destruct (digit_reads c Hc). split; constructor; assumption.
Qed.

(** [modulo11] on a string of digits. *)
Lemma modulo11_digit_string (s : jsstring) (h : heap) :
  all_digits s ->
  fst (modulo11 (VStr s) h) = Some (modulo11Digit (digit_value <$> s)).
Proof.
  intros Hs. rewrite modulo11_string_run. cbn [fst].
  destruct (digits_read s Hs) as [Hr Hd].
  rewrite <- (length_fmap EChr s). now apply modulo11_on_digits.
Qed.

Lemma regex_exec_length (p : list item) (s : jsstring) (caps : list jsstring) :
  regex_exec p s = Some caps -> length s = total_width p.
Proof.
  revert s caps. induction p as [|it p IH]; intros s caps E.
  - destruct s; [reflexivity|discriminate].
  - cbn [regex_exec] in E.
    destruct (length (take (width it) s) =? width it)%nat eqn:Hw;
      [|discriminate].
    apply Nat.eqb_eq in Hw. rewrite length_take in Hw.
    destruct (forallb is_digit (take (width it) s)); [|discriminate].
    cbn [andb] in E.
    destruct (regex_exec p (drop (width it) s)) as [caps'|] eqn:E';
      [|discriminate].
    apply IH in E'. rewrite length_drop in E'.
    cbn [total_width foldr]. fold (total_width p). lia.
Qed.

Lemma barcode_digits (s : jsstring) :
  all_digits s -> all_digits (barcode {| bankSlipNumber := s |}).
Proof.
  intros Hs. destruct (decide (length s = 47%nat)) as [Hl|Hl].
  - rewrite (barcode_slices s Hs Hl).
    unfold all_digits in *. repeat (apply Forall_app; split);
      repeat first [apply Forall_take | apply Forall_drop]; exact Hs.
  - unfold barcode, replace_regex. cbn [bankSlipNumber].
    destruct (regex_exec barcode_pattern s) as [caps|] eqn:E; [|exact Hs].
    apply regex_exec_length in E. now destruct Hl.
Qed.

Lemma valid_digits_iff (s : jsstring) (h : heap) :
  all_digits s ->
  fst (valid {| bankSlipNumber := s |} h) = true
  <-> length s = 47%nat /\ checksum_matches s.
Proof.
  intros Hs. rewrite (valid_true_iff _ h h). cbn [bankSlipNumber].
  unfold checksum_matches.
  assert (Hd : all_digits (delete 4%nat (barcode {| bankSlipNumber := s |}))).
  { rewrite delete_take_drop. apply Forall_app.
    split; [apply Forall_take|apply Forall_drop]; now apply barcode_digits. }
  split; intros (Hl & c & Hc & Hm); (split; [exact Hl|]); exists c;
    (split; [exact Hc|]).
  - rewrite (modulo11_digit_string _ _ Hd) in Hm. now injection Hm.
  - rewrite (modulo11_digit_string _ _ Hd). now f_equal.
Qed.

(** C4: the constructor keeps the digits of its input and nothing else; it
    throws the error "Invalid bank slip number" exactly when that residue
    fails validation (its length is not 47, or the checksum does not match),
    and otherwise yields the object that stores the residue.  The two
    outcomes exclude each other, and an input with separators fares as its
    residue does. *)
Theorem constructor_throws_iff_invalid (input : jsstring) (h : heap) :
  let residue := List.filter is_digit input in
  all_digits residue
  /\ (fst (constructor input h) = inr {| bankSlipNumber := residue |}
      <-> length residue = 47%nat /\ checksum_matches residue)
  /\ (fst (constructor input h)
      = inl (Error (str "Invalid bank slip number"))
      <-> ~ (length residue = 47%nat /\ checksum_matches residue))
  /\ (forall this, fst (constructor input h) = inr this ->
      this = {| bankSlipNumber := residue |})
  /\ fst (constructor input h) = fst (constructor residue h).
Proof.
  intros residue.
  pose proof (filter_is_digit input) as Hd. fold residue in Hd.
  pose proof (valid_digits_iff residue h Hd) as Hv.
  pose proof (constructor_run input h) as Hc. cbv zeta in Hc.
  fold residue in Hc.
  assert (Hres : List.filter is_digit residue = residue)
    by (now apply filter_digits_id).
  split; [exact Hd|]. rewrite Hc.
  assert (Hc' : fst (constructor residue h)
                = if fst (valid {| bankSlipNumber := residue |} h)
                  then inr {| bankSlipNumber := residue |}
                  else inl (Error (str "Invalid bank slip number"))).
  { rewrite constructor_run. cbv zeta. now rewrite Hres. }
  rewrite Hc'.
  destruct (fst (valid {| bankSlipNumber := residue |} h)) eqn:E.
  - split; [|split; [|split]].
    + split; [intros _; now apply Hv|reflexivity].
    + split; [discriminate|]. intros H. exfalso. apply H. now apply Hv.
    + now intros this [= <-].
    + reflexivity.
  - split; [|split; [|split]].
    + split; [discriminate|]. intros H. apply Hv in H. discriminate.
    + split; [|reflexivity]. intros _ H. apply Hv in H. discriminate.
    + intros this [=].
    + reflexivity.
Qed.

Lemma constructor_throws_iff_invalid_witness :
  fst (constructor
         (str "34195.00008 01233.203189 64221.470004 5 84410000002000") [])
  = inr {| bankSlipNumber := sample_number |}
  /\ fst (constructor (str "341-9") [])
     = inl (Error (str "Invalid bank slip number")).
Proof.
  split.
  - destruct (constructor_throws_iff_invalid
                (str "34195.00008 01233.203189 64221.470004 5 84410000002000")
                []) as (_ & Hok & _).
    apply Hok. split; [reflexivity|].
    exists 53%N. split; reflexivity.
  - destruct (constructor_throws_iff_invalid (str "341-9") [])
      as (_ & _ & Hthrow & _).
    apply Hthrow. intros [Hl _]. discriminate Hl.
Defined.

(** ** modulo11 and the store *)

(** The string form works on a fresh array: every array of the store is
    left as it was. *)
Lemma modulo11_string_keeps_store (s : jsstring) (h : heap) (r : ref)
  (a : array) :
  h !! r = Some a -> snd (modulo11 (VStr s) h) !! r = Some a.
Proof.
  intros Hr. rewrite modulo11_string_run. cbn [snd].
  now apply lookup_app_l_Some.
Qed.

(** The array form reverses the caller's array. *)
Lemma modulo11_array_reversed (h : heap) (r : ref) (a : array) :
  h !! r = Some a -> snd (modulo11 (VArr r) h) !! r = Some (reverse a).
Proof.
  intros Hr. rewrite (modulo11_array_run _ _ _ Hr). cbn [snd].
  apply list_lookup_insert_eq. eapply lookup_lt_Some; eassumption.
Qed.

(** C9 fails for the array form: called on the array [1, 2], [modulo11]
    returns 4 and leaves the caller's array as [2, 1]; a second call on the
    same array returns 3. *)
Theorem modulo11_array_call_reverses_argument :
  modulo11 (VArr 0%nat) [[ENum 1; ENum 2]] = (Some 4, [[ENum 2; ENum 1]])
  /\ fst (modulo11 (VArr 0%nat)
            (snd (modulo11 (VArr 0%nat) [[ENum 1; ENum 2]]))) = Some 3.
Proof. split; reflexivity. Qed.

(** C10: on the empty string and on an empty array [modulo11] returns 1,
    which is [(11 - (0 mod 11)) mod 10]; it does not fail and does not
    return NaN. *)
Theorem modulo11_empty (h : heap) (r : ref) :
  h !! r = Some [] ->
  fst (modulo11 (VStr []) h) = Some 1
  /\ fst (modulo11 (VArr r) h) = Some 1
  /\ (11 - 0 mod 11) mod 10 = 1.
Proof.
  intros Hr. rewrite modulo11_string_run, (modulo11_array_run _ _ _ Hr).
  repeat split.
Qed.

Lemma modulo11_empty_witness :
  fst (modulo11 (VStr []) [[]]) = Some 1
  /\ fst (modulo11 (VArr 0%nat) [[]]) = Some 1
  /\ (11 - 0 mod 11) mod 10 = 1.
Proof. apply (modulo11_empty [[]] 0%nat). reflexivity. Defined.

(** ** Constructed records *)

(** What the constructor guarantees of the object it yields. *)
Lemma constructed_record (input : jsstring) (h : heap) (this : Boleto) :
  fst (constructor input h) = inr this ->
  all_digits (bankSlipNumber this)
  /\ length (bankSlipNumber this) = 47%nat
  /\ all_digits (barcode this)
  /\ length (barcode this) = 44%nat.
Proof.
  rewrite constructor_run. cbv zeta.
  destruct (fst (valid {| bankSlipNumber := List.filter is_digit input |} h))
    eqn:E; [|discriminate].
  intros [= <-]. cbn [bankSlipNumber].
  apply (valid_true_iff _ h h) in E. destruct E as [Hl _].
  cbn [bankSlipNumber] in Hl.
  pose proof (filter_is_digit input) as Hd.
  split; [exact Hd|]. split; [exact Hl|]. split; [now apply barcode_digits|].
  rewrite (barcode_slices _ Hd Hl).
  rewrite !length_app, !length_take, !length_drop, Hl. reflexivity.
Qed.

(** ** Strings of digits as numbers *)

Lemma digit_not_whitespace (c : N) :
  is_digit c = true -> is_whitespace c = false.
Proof.
  unfold is_digit. intros H. apply andb_prop in H as [H1 H2].
  apply N.leb_le in H1. apply N.leb_le in H2.
  assert (c = 48 \/ c = 49 \/ c = 50 \/ c = 51 \/ c = 52 \/ c = 53
          \/ c = 54 \/ c = 55 \/ c = 56 \/ c = 57)%N as Hc by lia.
  repeat (destruct Hc as [->|Hc]; [reflexivity|]). now subst.
Qed.

Lemma trim_left_digits (s : jsstring) : all_digits s -> trim_left s = s.
Proof.
  destruct 1 as [|c s Hc _]; [reflexivity|].
  cbn. now rewrite (digit_not_whitespace c Hc).
Qed.

Lemma StringToNumber_digits (s : jsstring) :
  all_digits s -> s <> [] -> StringToNumber s = Some (digits_value s).
Proof.
  intros Hs Hne. unfold StringToNumber, trim.
  rewrite (trim_left_digits s Hs).
  rewrite (trim_left_digits (reverse s)) by (now apply Forall_reverse).
  rewrite reverse_involutive.
  destruct s as [|c s]; [congruence|].
  now rewrite (forallb_digits _ Hs).
Qed.

Lemma foldl_digits_bound (s : jsstring) :
  all_digits s -> forall acc, 0 <= acc ->
  0 <= foldl (fun a c => 10 * a + digit_value c) acc s
    < (acc + 1) * 10 ^ Z.of_nat (length s).
Proof.
  induction 1 as [|c s Hc _ IH]; intros acc Hacc.
  - cbn. lia.
  - cbn [foldl length]. destruct (digit_reads c Hc) as [_ Hd].
    unfold single_digit in Hd.
    specialize (IH (10 * acc + digit_value c) ltac:(lia)).
    rewrite Nat2Z.inj_succ, Z.pow_succ_r by lia.
    assert (0 < 10 ^ Z.of_nat (length s)) by (apply Z.pow_pos_nonneg; lia).
    nia.
Qed.

Lemma digits_value_bound (s : jsstring) :
  all_digits s -> 0 <= digits_value s < 10 ^ Z.of_nat (length s).
Proof.
  intros Hs. pose proof (foldl_digits_bound s Hs 0 ltac:(lia)) as H.
  unfold digits_value. lia.
Qed.

(** A field of a constructed record's barcode. *)
Lemma barcode_field (input : jsstring) (h : heap) (this : Boleto)
  (start len : nat) :
  fst (constructor input h) = inr this ->
  (0 < len)%nat -> (start + len <= 44)%nat ->
  let field := substr (barcode this) start len in
  all_digits field /\ length field = len
  /\ StringToNumber field = Some (digits_value field)
  /\ 0 <= digits_value field < 10 ^ Z.of_nat len.
Proof.
  intros Hc Hlen Hfit field.
  destruct (constructed_record _ _ _ Hc) as (_ & _ & Hd & Hl).
  assert (Hf : all_digits field)
    by (apply Forall_take, Forall_drop, Hd).
  assert (Hfl : length field = len).
  { unfold field, substr. rewrite length_take, length_drop. lia. }
  split; [exact Hf|]. split; [exact Hfl|]. split.
  - apply StringToNumber_digits; [exact Hf|].
    intros E. rewrite E in Hfl. cbn in Hfl. lia.
  - rewrite <- Hfl. now apply digits_value_bound.
Qed.

(** ** expirationDate *)

Lemma refDate_time :
  Date_of_string (str "1997-10-07") = {| getTime := Some 876182400000 |}.
Proof. reflexivity. Qed.

Lemma days_agree_sound (k : nat) :
  forall ymd day, days_agree k ymd day = true ->
  forall n, (n < k)%nat ->
  day_number (add_days n ymd) = day + Z.of_nat n.
Proof.
  induction k as [|k IH]; intros ymd day H n Hn; [lia|].
  cbn [days_agree] in H. apply andb_prop in H as [H0 H1].
  apply Z.eqb_eq in H0.
  destruct n as [|n]; [cbn; lia|].
  unfold add_days. rewrite Nat.iter_succ_r.
  fold (add_days n (next_day ymd)).
  rewrite (IH _ _ H1 n) by lia. lia.
Qed.

(** The day numbers of the 10000 calendar days from 1997-10-07 on are
    consecutive. *)
Lemma epoch_days (n : Z) :
  0 <= n <= 9999 ->
  day_number (add_days (Z.to_nat n) (1997, 10, 7)) = 10141 + n.
Proof.
  intros Hn.
  rewrite (days_agree_sound (Z.to_nat 10000) (1997, 10, 7) 10141);
    [lia| |lia].
  vm_compute. reflexivity.
Qed.

(** C8: the due date of a constructed record is UTC midnight of 1997-10-07
    plus the offset written at barcode positions 5 to 8, a whole number of
    days, that is UTC midnight of the calendar day that many days after
    1997-10-07; offset 0000 gives 1997-10-07 and offset 0001 gives
    1997-10-08. *)
Theorem expirationDate_is_epoch_plus_offset (input : jsstring) (h : heap)
  (this : Boleto) :
  fst (constructor input h) = inr this ->
  let n := digits_value (substr (barcode this) 5 4) in
  0 <= n <= 9999
  /\ expirationDate this
     = {| getTime := Some (876182400000 + n * 86400000) |}
  /\ expirationDate this = Date_of_day (add_days (Z.to_nat n) (1997, 10, 7))
  /\ (substr (barcode this) 5 4 = str "0000" ->
      expirationDate this = Date_of_string (str "1997-10-07"))
  /\ (substr (barcode this) 5 4 = str "0001" ->
      expirationDate this = Date_of_string (str "1997-10-08")).
Proof.
  intros Hc n.
  destruct (barcode_field input h this 5 4 Hc ltac:(lia) ltac:(lia))
    as (_ & _ & Hnum & Hb).
  fold n in Hnum, Hb. change (10 ^ Z.of_nat 4) with 10000 in Hb.
  assert (He : expirationDate this
               = {| getTime := Some (876182400000 + n * 86400000) |}).
  { unfold expirationDate. now rewrite refDate_time, Hnum. }
  split; [lia|]. split; [exact He|]. split; [|split].
  - rewrite He. unfold Date_of_day. rewrite epoch_days by lia.
    unfold msPerDay. do 2 f_equal. lia.
  - intros E. rewrite He. unfold n. rewrite E. reflexivity.
  - intros E. rewrite He. unfold n. rewrite E. reflexivity.
Qed.

Lemma expirationDate_is_epoch_plus_offset_witness :
  expirationDate {| bankSlipNumber := sample_day_0 |}
  = Date_of_string (str "1997-10-07")
  /\ expirationDate {| bankSlipNumber := sample_day_1 |}
     = Date_of_string (str "1997-10-08")
  /\ expirationDate {| bankSlipNumber := sample_number |}
     = Date_of_string (str "2020-11-16").
Proof.
  split; [|split].
  - destruct (expirationDate_is_epoch_plus_offset sample_day_0 []
                {| bankSlipNumber := sample_day_0 |} eq_refl)
      as (_ & _ & _ & H0 & _).
    apply H0. reflexivity.
  - destruct (expirationDate_is_epoch_plus_offset sample_day_1 []
                {| bankSlipNumber := sample_day_1 |} eq_refl)
      as (_ & _ & _ & _ & H1).
    apply H1. reflexivity.
  - destruct (expirationDate_is_epoch_plus_offset sample_number []
                {| bankSlipNumber := sample_number |} eq_refl)
      as (_ & -> & _).
    reflexivity.
Defined.

(** ** currency, amount and prettyAmount *)

Lemma uint_chars_digits (u : Decimal.uint) : all_digits (uint_chars u).
Proof. induction u; constructor; auto. Qed.

Lemma Number_toString_digits (z : Z) :
  0 <= z -> all_digits (Number_toString (Some z)).
Proof.
  intros Hz. unfold Number_toString.
  destruct (Z.ltb_spec z 0); [lia|]. apply uint_chars_digits.
Qed.

Lemma digit_not_dot (c : N) : is_digit c = true -> (c =? 46)%N = false.
Proof.
  unfold is_digit. intros H. apply andb_prop in H as [H1 _].
  apply N.leb_le in H1. apply N.eqb_neq. lia.
Qed.

Lemma replace_first_dot (rep d f : jsstring) :
  all_digits d ->
  replace_first (str ".") rep (d ++ str "." ++ f) = d ++ rep ++ f.
Proof.
  induction 1 as [|c d Hc _ IH].
  - cbn. rewrite bool_decide_eq_true_2 by reflexivity. now rewrite drop_0.
  - cbn [app replace_first].
    rewrite bool_decide_eq_false_2.
    + now rewrite IH.
    + cbn. rewrite take_0. intros [= ->]. discriminate Hc.
Qed.

Lemma replace_char_digits (d : jsstring) :
  all_digits d -> replace_char 46 44 d = d.
Proof.
  induction 1 as [|c d Hc _ IH]; [reflexivity|].
  cbn. rewrite (digit_not_dot c Hc). f_equal. exact IH.
Qed.

Lemma replace_char_dot (d f : jsstring) :
  all_digits d -> all_digits f ->
  replace_char 46 44 (d ++ str "." ++ f) = d ++ str "," ++ f.
Proof.
  intros Hd Hf. unfold replace_char. rewrite !map_app.
  fold (replace_char 46 44 d). fold (replace_char 46 44 f).
  now rewrite !replace_char_digits.
Qed.

(** The amount of a constructed record: an integer part, a dot and two
    fraction digits. *)
Lemma amount_shape (input : jsstring) (h : heap) (this : Boleto) :
  fst (constructor input h) = inr this ->
  exists d f, amount this = d ++ str "." ++ f
              /\ all_digits d /\ all_digits f /\ length f = 2%nat.
Proof.
  intros Hc.
  destruct (barcode_field input h this 9 10 Hc ltac:(lia) ltac:(lia))
    as (_ & _ & Hnum & Hb).
  unfold amount. rewrite Hnum. unfold div100_toFixed2.
  set (x := digits_value (substr (barcode this) 9 10)) in *.
  destruct (Z.ltb_spec x 0); [lia|]. rewrite Z.abs_eq by lia. cbn [app].
  eexists _, _. split; [reflexivity|].
  split; [apply Number_toString_digits; apply Z.div_pos; lia|].
  split; [|reflexivity].
  pose proof (Z.mod_pos_bound x 100 ltac:(lia)).
  pose proof (Z.mod_pos_bound x 10 ltac:(lia)).
  assert (0 <= x mod 100 / 10 <= 9).
  { split; [apply Z.div_pos; lia|].
    apply Z.lt_succ_r. apply Z.div_lt_upper_bound; lia. }
  repeat constructor; unfold is_digit;
    apply andb_true_intro; split; apply N.leb_le; lia.
Qed.

(** C7: for a constructed record, when the barcode has [9] at index 3,
    [currency()] is the object for BRL and [prettyAmount()] is the symbol, a
    space and [amount()] with its dot replaced by a comma; for any other
    character there, [currency()] is the string "Unknown" and
    [prettyAmount()] is [amount()] as it is. *)
Theorem currency_and_prettyAmount (input : jsstring) (h : heap)
  (this : Boleto) :
  fst (constructor input h) = inr this ->
  (exists c, barcode this !! 3%nat = Some c /\ is_digit c = true)
  /\ (barcode this !! 3%nat = Some 57%N ->
      currency this = CurrencyObject (str "BRL") (str "R$") (str ",")
      /\ prettyAmount this
         = str "R$" ++ str " "
           ++ replace_first (str ".") (str ",") (amount this)
      /\ replace_first (str ".") (str ",") (amount this)
         = replace_char 46 44 (amount this))
  /\ (forall c, barcode this !! 3%nat = Some c -> c <> 57%N ->
      currency this = CurrencyString (str "Unknown")
      /\ prettyAmount this = amount this).
Proof.
  intros Hc.
  destruct (constructed_record _ _ _ Hc) as (_ & _ & Hd & Hl).
  split; [|split].
  - destruct (lookup_lt_is_Some_2 (barcode this) 3 ltac:(lia)) as [c E].
    exists c. split; [exact E|].
    exact (proj1 (Forall_lookup _ _) Hd _ _ E).
  - intros E.
    assert (Hcur : currency this
                   = CurrencyObject (str "BRL") (str "R$") (str ","))
      by (unfold currency; now rewrite E).
    split; [exact Hcur|]. split.
    + unfold prettyAmount. now rewrite Hcur.
    + destruct (amount_shape _ _ _ Hc) as (d & f & -> & Hdd & Hf & _).
      now rewrite replace_first_dot, replace_char_dot.
  - intros c E Hne.
    assert (Hcur : currency this = CurrencyString (str "Unknown")).
    { unfold currency. rewrite E.
      now rewrite (proj2 (N.eqb_neq c 57) Hne). }
    split; [exact Hcur|]. unfold prettyAmount. now rewrite Hcur.
Qed.

Lemma currency_and_prettyAmount_witness :
  prettyAmount {| bankSlipNumber := sample_number |} = str "R$ 20,00"
  /\ prettyAmount {| bankSlipNumber := sample_currency_0 |} = str "20.00".
Proof.
  split.
  - destruct (currency_and_prettyAmount sample_number []
                {| bankSlipNumber := sample_number |} eq_refl)
      as (_ & H9 & _).
    destruct (H9 eq_refl) as (_ & -> & _). reflexivity.
  - destruct (currency_and_prettyAmount sample_currency_0 []
                {| bankSlipNumber := sample_currency_0 |} eq_refl)
      as (_ & _ & H0).
    destruct (H0 48%N eq_refl ltac:(discriminate)) as (_ & ->).
    reflexivity.
Defined.

(** * Further properties of the code *)

(** ** modulo11 on any input *)

Lemma modulo11_run (number : value) (h : heap) (a : array) :
  contents number h = Some a ->
  fst (modulo11 number h)
  = modulo11_result (modulo11_for (length a) (reverse a) 0 (Some 0)).
Proof.
  destruct number as [s|r]; cbn [contents].
  - intros [= <-]. rewrite modulo11_string_run. cbn [fst].
    now rewrite length_fmap.
  - intros Hr. now rewrite (modulo11_array_run _ _ _ Hr).
Qed.

Lemma modulo11_between_1_and_9_range (number : value) (h : heap) :
  is_Some (contents number h) ->
  exists v, fst (modulo11 number h) = Some v /\ 1 <= v <= 9.
Proof.
  intros [a Hc]. rewrite (modulo11_run _ _ _ Hc). apply modulo11_result_range.
Qed.



Lemma modulo11_for_NaN (a : array) (n i : nat) :
  modulo11_for n a i None = None.
Proof.
  revert i. induction n as [|n IH]; intros i; [reflexivity|].
  cbn [modulo11_for]. destruct (i <? length a)%nat; [|reflexivity].
  unfold modulo11_step. cbn [num_add]. apply IH.
Qed.

Lemma modulo11_for_reaches_NaN (a : array) (j : nat) (e : elem) :
  a !! j = Some e -> ToNumber (Some e) = None ->
  forall n i sum, (i <= j)%nat -> (j < i + n)%nat ->
  modulo11_for n a i sum = None.
Proof.
  intros Hj He. pose proof (lookup_lt_Some _ _ _ Hj) as Hlt.
  induction n as [|n IH]; intros i sum Hi Hn; [lia|].
  cbn [modulo11_for].
  rewrite (proj2 (Nat.ltb_lt i (length a))) by lia.
  destruct (decide (i = j)) as [->|Hne].
  - unfold modulo11_step. rewrite weight_rem, Hj, He. cbn [num_mul].
    destruct sum; cbn [num_add]; apply modulo11_for_NaN.
  - apply IH; lia.
Qed.

Lemma not_a_number_char (c : N) :
  is_digit c = false -> is_whitespace c = false ->
  ToNumber (Some (EChr c)) = None.
Proof.
  intros Hd Hw. cbn [ToNumber]. unfold StringToNumber, trim.
  cbn [trim_left]. rewrite Hw. change (reverse [c]) with [c].
  cbn [trim_left]. rewrite Hw. change (reverse [c]) with [c].
  cbn [forallb]. now rewrite Hd.
Qed.

(** X2: when the input holds a character that is neither a digit nor white
    space, the sum is NaN and [modulo11] returns 1, without any error. *)
Theorem modulo11_of_non_digit_is_1 (number : value) (h : heap) (a : array)
  (c : N) :
  contents number h = Some a ->
  EChr c ∈ a -> is_digit c = false -> is_whitespace c = false ->
  fst (modulo11 number h) = Some 1.
Proof.
  intros Hc Hin Hd Hw. rewrite (modulo11_run _ _ _ Hc).
  apply elem_of_reverse, list_elem_of_lookup in Hin. destruct Hin as [j Hj].
  pose proof (lookup_lt_Some _ _ _ Hj) as Hlt. rewrite length_reverse in Hlt.
  rewrite (modulo11_for_reaches_NaN (reverse a) j (EChr c) Hj
             (not_a_number_char c Hd Hw)) by lia.
  reflexivity.
Qed.

Lemma modulo11_of_non_digit_is_1_witness :
  fst (modulo11 (VStr (str "341-9")) []) = Some 1.
Proof.
  apply (modulo11_of_non_digit_is_1 (VStr (str "341-9")) []
           (EChr <$> str "341-9") 45%N).
  - reflexivity.
  - apply list_elem_of_In. cbn. tauto.
  - reflexivity.
  - reflexivity.
Defined.

(** The result depends on the sequence alone: a string and an array that
    holds its characters give the same digit, whatever the store holds
    besides. *)
Lemma modulo11_depends_on_contents (n1 n2 : value) (h1 h2 : heap)
  (a : array) :
  contents n1 h1 = Some a -> contents n2 h2 = Some a ->
  fst (modulo11 n1 h1) = fst (modulo11 n2 h2).
Proof.
  intros H1 H2. now rewrite (modulo11_run _ _ _ H1), (modulo11_run _ _ _ H2).
Qed.

(** X3: a call on an array changes the store in one place only: that array
    is reversed, every other array and the number of arrays are as before;
    a second call on the same array puts the store back as it was. *)
Theorem modulo11_array_store_effect (h : heap) (r : ref) (a : array) :
  h !! r = Some a ->
  snd (modulo11 (VArr r) h) = <[r := reverse a]> h
  /\ (forall r', r' <> r -> snd (modulo11 (VArr r) h) !! r' = h !! r')
  /\ length (snd (modulo11 (VArr r) h)) = length h
  /\ snd (modulo11 (VArr r) (snd (modulo11 (VArr r) h))) = h.
Proof.
  intros Hr. pose proof (lookup_lt_Some _ _ _ Hr) as Hlt.
  rewrite (modulo11_array_run _ _ _ Hr). cbn [snd].
  split; [reflexivity|]. split; [|split].
  - intros r' Hne. now apply list_lookup_insert_ne.
  - apply length_insert.
  - rewrite (modulo11_array_run _ _ (reverse a))
      by (now apply list_lookup_insert_eq).
    cbn [snd]. rewrite list_insert_insert_eq, reverse_involutive.
    now apply list_insert_id.
Qed.

Lemma modulo11_array_store_effect_witness :
  snd (modulo11 (VArr 0%nat)
         (snd (modulo11 (VArr 0%nat) [[ENum 1; ENum 2]; [ENum 3]])))
  = [[ENum 1; ENum 2]; [ENum 3]].
Proof.
  apply (modulo11_array_store_effect [[ENum 1; ENum 2]; [ENum 3]] 0%nat
           [ENum 1; ENum 2]).
  reflexivity.
Defined.

(** ** The weighting of modulo11 *)

Lemma weighted_sum_app (a b : list Z) (i : nat) :
  weighted_sum i (a ++ b)
  = weighted_sum i a + weighted_sum (i + length a) b.
Proof.
  revert i. induction a as [|x a IH]; intros i; cbn [app weighted_sum length].
  - rewrite Nat.add_0_r. lia.
  - rewrite IH. replace (S i + length a)%nat with (i + S (length a))%nat by lia.
    lia.
Qed.

Lemma weighted_sum_zeros (k i : nat) : weighted_sum i (replicate k 0) = 0.
Proof.
  revert i. induction k as [|k IH]; intros i; cbn [replicate weighted_sum];
    [reflexivity|].
  rewrite IH. lia.
Qed.

Lemma all_digits_zeros (k : nat) : all_digits (replicate k 48%N).
Proof. induction k; constructor; auto. Qed.

(** X4: the digits are weighted from the right, so zeros written in front
    of a string of digits do not change its check digit. *)
Theorem modulo11_leading_zeros (s : jsstring) (k : nat) (h h' : heap) :
  all_digits s ->
  fst (modulo11 (VStr (replicate k 48%N ++ s)) h)
  = fst (modulo11 (VStr s) h').
Proof.
  intros Hs.
  rewrite (modulo11_digit_string s h' Hs).
  rewrite modulo11_digit_string
    by (apply Forall_app; split; [apply all_digits_zeros|exact Hs]).
  f_equal. unfold modulo11Digit.
  rewrite fmap_app, fmap_replicate, reverse_app, reverse_replicate.
  change (digit_value 48) with 0.
  rewrite weighted_sum_app, weighted_sum_zeros. now rewrite Z.add_0_r.
Qed.

Lemma modulo11_leading_zeros_witness :
  fst (modulo11 (VStr (replicate 3 48%N ++ str "123456789")) [])
  = fst (modulo11 (VStr (str "123456789")) []).
Proof.
  apply (modulo11_leading_zeros (str "123456789") 3 [] []).
  apply Forall_forall. intros c Hc. apply list_elem_of_In in Hc.
  revert c Hc. apply forallb_forall. reflexivity.
Defined.

Lemma weight_range (i : nat) : 2 <= weight i <= 9.
Proof.
  unfold weight. pose proof (Nat.mod_upper_bound i 8 ltac:(lia)). lia.
Qed.

(** 11 divides no product of a weight and a difference of two digits. *)
Lemma weight_times_difference (w x : Z) :
  2 <= w <= 9 -> -9 <= x <= 9 -> x <> 0 -> (w * x) mod 11 <> 0.
Proof.
  intros Hw Hx Hne.
  assert (w = 2 \/ w = 3 \/ w = 4 \/ w = 5 \/ w = 6 \/ w = 7 \/ w = 8
          \/ w = 9) as Hwc by lia.
  assert (x = -9 \/ x = -8 \/ x = -7 \/ x = -6 \/ x = -5 \/ x = -4
          \/ x = -3 \/ x = -2 \/ x = -1 \/ x = 1 \/ x = 2 \/ x = 3
          \/ x = 4 \/ x = 5 \/ x = 6 \/ x = 7 \/ x = 8 \/ x = 9)
    as Hxc by lia.
  clear Hw Hx Hne.
  repeat (destruct Hwc as [->|Hwc]);
    try subst w;
    repeat (destruct Hxc as [->|Hxc]; [discriminate|]);
    subst x; discriminate.
Qed.

(** The last step of the check digit, from the sum's remainder. *)
Lemma result_determines_remainder (r r' : Z) :
  0 <= r < 11 -> 0 <= r' < 11 ->
  (let v := (11 - r) mod 10 in if v =? 0 then 1 else v)
  = (let v := (11 - r') mod 10 in if v =? 0 then 1 else v) ->
  r = r' \/ (let v := (11 - r) mod 10 in if v =? 0 then 1 else v) = 1.
Proof.
  intros Hr Hr'.
  assert (r = 0 \/ r = 1 \/ r = 2 \/ r = 3 \/ r = 4 \/ r = 5 \/ r = 6
          \/ r = 7 \/ r = 8 \/ r = 9 \/ r = 10) as Hc by lia.
  assert (r' = 0 \/ r' = 1 \/ r' = 2 \/ r' = 3 \/ r' = 4 \/ r' = 5
          \/ r' = 6 \/ r' = 7 \/ r' = 8 \/ r' = 9 \/ r' = 10) as Hc' by lia.
  clear Hr Hr'.
  repeat (destruct Hc as [->|Hc]);
    try subst r;
    repeat (destruct Hc' as [->|Hc']; [cbn; intros E; first
              [discriminate E | now left | now right]|]);
    subst r'; cbn; intros E; first [discriminate E | now left | now right].
Qed.

Lemma modulo11Digit_single_change (l1 l2 : list Z) (x y : Z) :
  single_digit x -> single_digit y -> x <> y ->
  modulo11Digit (l1 ++ x :: l2) <> modulo11Digit (l1 ++ y :: l2)
  \/ (modulo11Digit (l1 ++ x :: l2) = 1
      /\ modulo11Digit (l1 ++ y :: l2) = 1).
Proof.
  intros Hx Hy Hne. unfold single_digit in *.
  destruct (decide (modulo11Digit (l1 ++ x :: l2)
                    = modulo11Digit (l1 ++ y :: l2))) as [E|E];
    [|now left].
  right. unfold modulo11Digit in E |- *. cbv zeta in E |- *.
  set (i := length l2).
  set (A := weighted_sum 0 (reverse l2)).
  set (B := weighted_sum (S i) (reverse l1)).
  assert (HS : forall z, weighted_sum 0 (reverse (l1 ++ z :: l2))
                         = A + z * weight i + B).
  { intros z. rewrite reverse_app, reverse_cons, <- app_assoc.
    rewrite !weighted_sum_app. cbn [weighted_sum app length].
    rewrite length_reverse. fold i.
    replace (0 + i)%nat with i by lia.
    replace (i + 1)%nat with (S i) by lia. fold A B. lia. }
  rewrite !HS in E |- *.
  pose proof (Z.mod_pos_bound (A + x * weight i + B) 11 ltac:(lia)) as H1.
  pose proof (Z.mod_pos_bound (A + y * weight i + B) 11 ltac:(lia)) as H2.
  destruct (result_determines_remainder _ _ H1 H2 E) as [Hr|Hv].
  - exfalso.
    apply (weight_times_difference (weight i) (x - y) (weight_range i));
      [lia|lia|].
    replace (weight i * (x - y))
      with ((A + x * weight i + B) - (A + y * weight i + B)) by lia.
    rewrite Zminus_mod, Hr, Z.sub_diag. reflexivity.
  - split; [exact Hv|]. cbv zeta in Hv. now rewrite <- E.
Qed.

(** X5: changing one digit of a string of digits changes its check digit,
    unless the check digit is 1 before and after (the remainders 0, 1 and
    10 of the sum all give 1). *)
Theorem modulo11_single_digit_change (l1 l2 : jsstring) (c c' : N)
  (h h' : heap) :
  all_digits (l1 ++ c :: l2) -> is_digit c' = true -> c <> c' ->
  fst (modulo11 (VStr (l1 ++ c :: l2)) h)
  <> fst (modulo11 (VStr (l1 ++ c' :: l2)) h')
  \/ (fst (modulo11 (VStr (l1 ++ c :: l2)) h) = Some 1
      /\ fst (modulo11 (VStr (l1 ++ c' :: l2)) h') = Some 1).
Proof.
  intros Hs Hc' Hne.
  assert (Hs' : all_digits (l1 ++ c' :: l2)).
  { apply Forall_app in Hs as [H1 H2]. apply Forall_cons in H2 as [_ H2].
    apply Forall_app. split; [exact H1|]. now constructor. }
  assert (Hc : is_digit c = true).
  { apply Forall_app in Hs as [_ H2]. now apply Forall_cons in H2 as [H2 _]. }
  rewrite !modulo11_digit_string by assumption.
  rewrite !fmap_app, !fmap_cons.
  destruct (digit_reads c Hc) as [_ Hd]. destruct (digit_reads c' Hc') as [_ Hd'].
  assert (Hv : digit_value c <> digit_value c')
    by (unfold digit_value; lia).
  destruct (modulo11Digit_single_change (digit_value <$> l1)
              (digit_value <$> l2) _ _ Hd Hd' Hv) as [H|[H1 H2]].
  - left. intros [= E]. now apply H.
  - right. now rewrite H1, H2.
Qed.

Lemma modulo11_single_digit_change_witness :
  fst (modulo11 (VStr (str "12" ++ 51%N :: str "456789")) [])
  <> fst (modulo11 (VStr (str "12" ++ 52%N :: str "456789")) [])
  \/ (fst (modulo11 (VStr (str "12" ++ 51%N :: str "456789")) []) = Some 1
      /\ fst (modulo11 (VStr (str "12" ++ 52%N :: str "456789")) [])
         = Some 1).
Proof.
  apply (modulo11_single_digit_change (str "12") (str "456789") 51%N 52%N).
  - apply Forall_forall. intros c Hc. apply list_elem_of_In in Hc.
    revert c Hc. apply forallb_forall. reflexivity.
  - reflexivity.
  - discriminate.
Defined.

(** The exception of X5 does occur: 0 and 6 both have check digit 1. *)
Remark modulo11_undetected_change :
  fst (modulo11 (VStr (str "0")) []) = Some 1
  /\ fst (modulo11 (VStr (str "6")) []) = Some 1.
Proof. split; reflexivity. Qed.

(** ** The patterns on other strings *)

Lemma forallb_digits_inv (s : jsstring) :
  forallb is_digit s = true -> all_digits s.
Proof.
  induction s as [|c s IH]; cbn [forallb]; intros H; [constructor|].
  apply andb_prop in H as [Hc Hs]. constructor; [exact Hc|exact (IH Hs)].
Qed.

Lemma regex_exec_all_digits (p : list item) (s : jsstring)
  (caps : list jsstring) :
  regex_exec p s = Some caps -> all_digits s.
Proof.
  revert s caps. induction p as [|it p IH]; intros s caps E.
  - destruct s; [constructor|discriminate].
  - cbn [regex_exec] in E.
    destruct (length (take (width it) s) =? width it)%nat; [|discriminate].
    destruct (forallb is_digit (take (width it) s)) eqn:Hf; [|discriminate].
    cbn [andb] in E.
    destruct (regex_exec p (drop (width it) s)) as [caps'|] eqn:E';
      [|discriminate].
    rewrite <- (take_drop (width it) s). apply Forall_app. split.
    + now apply forallb_digits_inv.
    + eapply IH. eassumption.
Qed.

Lemma replace_regex_no_match (p : list item) (tpl : list piece)
  (s : jsstring) :
  ~ (all_digits s /\ length s = total_width p) -> replace_regex p tpl s = s.
Proof.
  intros H. unfold replace_regex.
  destruct (regex_exec p s) as [caps|] eqn:E; [|reflexivity].
  destruct H. split.
  - eapply regex_exec_all_digits; eassumption.
  - eapply regex_exec_length; eassumption.
Qed.

(** X6: on a stored string that is not exactly 47 digits, [barcode()] and
    [prettyNumber()] return the stored string as it is: no error, no
    truncation. *)
Theorem barcode_and_prettyNumber_without_match (s : jsstring) :
  ~ (all_digits s /\ length s = 47%nat) ->
  barcode {| bankSlipNumber := s |} = s
  /\ prettyNumber {| bankSlipNumber := s |} = s.
Proof.
  intros H. split.
  - unfold barcode. cbn [bankSlipNumber]. now apply replace_regex_no_match.
  - unfold prettyNumber. cbn [bankSlipNumber].
    now apply replace_regex_no_match.
Qed.

Lemma barcode_and_prettyNumber_without_match_witness :
  barcode {| bankSlipNumber := str "34195.00008" |} = str "34195.00008"
  /\ prettyNumber {| bankSlipNumber := str "34195.00008" |}
     = str "34195.00008".
Proof.
  apply (barcode_and_prettyNumber_without_match (str "34195.00008")).
  intros [_ Hl]. discriminate Hl.
Defined.

(** ** The fields of the barcode in the stored number *)

Lemma barcode_layout (s : jsstring) :
  all_digits s -> length s = 47%nat ->
  let bc := barcode {| bankSlipNumber := s |} in
  substr bc 0 3 = substr s 0 3
  /\ bc !! 3%nat = s !! 3%nat
  /\ bc !! 4%nat = s !! 32%nat
  /\ substr bc 5 4 = substr s 33 4
  /\ substr bc 9 10 = substr s 37 10
  /\ substr bc 19 25 = substr s 4 5 ++ substr s 10 10 ++ substr s 21 10.
Proof.
  intros Hd Hl bc. unfold bc. rewrite (barcode_slices s Hd Hl). clear Hd.
  do 47 (destruct s as [|? s]; [discriminate Hl|]).
  destruct s; [|discriminate Hl].
  repeat split.
Qed.

(** X7: where each accessor reads in a stored number of 47 digits: the bank
    code is its first three digits, the currency digit its index 3, the
    check digit its index 32, the due-date field its indices 33 to 36, the
    amount field its last ten digits, and the rest of the barcode its
    indices 4 to 8, 10 to 19 and 21 to 30. *)
Theorem barcode_fields_in_number (s : jsstring) :
  all_digits s -> length s = 47%nat ->
  let bc := barcode {| bankSlipNumber := s |} in
  substr bc 0 3 = substr s 0 3
  /\ bc !! 3%nat = s !! 3%nat
  /\ bc !! 4%nat = s !! 32%nat
  /\ substr bc 5 4 = substr s 33 4
  /\ substr bc 9 10 = substr s 37 10
  /\ substr bc 19 25 = substr s 4 5 ++ substr s 10 10 ++ substr s 21 10.
Proof. intros Hd Hl. exact (barcode_layout s Hd Hl). Qed.

Lemma barcode_fields_in_number_witness :
  substr (barcode {| bankSlipNumber := sample_number |}) 9 10
  = substr sample_number 37 10.
Proof.
  apply (barcode_fields_in_number sample_number).
  - exact sample_number_digits.
  - reflexivity.
Defined.

(** X8: the barcode of a stored number of 47 digits is a rearrangement of
    that number without its digits at indices 9, 20 and 31, the three check
    digits of the printed fields. *)
Theorem barcode_rearranges_number (s : jsstring) :
  all_digits s -> length s = 47%nat ->
  barcode {| bankSlipNumber := s |}
  ≡ₚ delete 9%nat (delete 20%nat (delete 31%nat s)).
Proof.
  intros Hd Hl. rewrite (barcode_slices s Hd Hl).
  assert (E : delete 9%nat (delete 20%nat (delete 31%nat s))
              = take 4 s
                ++ (take 5 (drop 4 s) ++ take 10 (drop 10 s)
                    ++ take 10 (drop 21 s))
                ++ take 15 (drop 32 s)).
  { clear Hd. do 47 (destruct s as [|? s]; [discriminate Hl|]).
    destruct s; [reflexivity|discriminate Hl]. }
  rewrite E. apply Permutation_app_head.
  rewrite (Permutation_app_comm (take 15 (drop 32 s))).
  now rewrite <- !app_assoc.
Qed.

Lemma barcode_rearranges_number_witness :
  barcode {| bankSlipNumber := sample_number |}
  ≡ₚ delete 9%nat (delete 20%nat (delete 31%nat sample_number)).
Proof.
  apply (barcode_rearranges_number sample_number).
  - exact sample_number_digits.
  - reflexivity.
Defined.

(** ** What construction guarantees *)

Lemma filter_is_digit_prettyNumber (s : jsstring) :
  all_digits s -> length s = 47%nat ->
  List.filter is_digit (prettyNumber {| bankSlipNumber := s |}) = s.
Proof.
  intros Hd Hl. rewrite (prettyNumber_slices s Hd Hl).
  assert (Hp : forall k n, List.filter is_digit (take n (drop k s))
                           = take n (drop k s)).
  { intros k n. apply filter_digits_id; [auto|].
    apply Forall_take, Forall_drop, Hd. }
  change (take 5 s) with (take 5 (drop 0 s)).
  rewrite !List.filter_app, !Hp.
  cbn [str list_ascii_of_string map List.filter app].
  change (take 5 (drop 0 s)) with (take 5 s).
  cbn. now apply pieces_of_47.
Qed.

Lemma constructed_valid (input : jsstring) (h : heap) (this : Boleto) :
  fst (constructor input h) = inr this ->
  this = {| bankSlipNumber := List.filter is_digit input |}
  /\ forall h', fst (valid this h') = true.
Proof.
  rewrite constructor_run. cbv zeta.
  destruct (fst (valid {| bankSlipNumber := List.filter is_digit input |} h))
    eqn:E; [|discriminate].
  intros [= <-]. split; [reflexivity|].
  intros h'. now rewrite (valid_store_independent _ h' h).
Qed.

(** X9: an object yielded by the constructor passes [valid()] on every
    later call, and the constructor yields the same object again from its
    [number()] and from its [prettyNumber()]. *)
Theorem constructed_stays_valid (input : jsstring) (h h' : heap)
  (this : Boleto) :
  fst (constructor input h) = inr this ->
  fst (valid this h') = true
  /\ fst (constructor (number this) h') = inr this
  /\ fst (constructor (prettyNumber this) h') = inr this.
Proof.
  intros Hc.
  destruct (constructed_record _ _ _ Hc) as (Hd & Hl & _).
  destruct (constructed_valid _ _ _ Hc) as [_ Hv].
  destruct this as [s]. cbn [bankSlipNumber number] in *.
  split; [apply Hv|]. split.
  - rewrite constructor_run. cbv zeta.
    rewrite (filter_digits_id is_digit s) by auto.
    now rewrite Hv.
  - rewrite constructor_run. cbv zeta.
    rewrite (filter_is_digit_prettyNumber s Hd Hl).
    now rewrite Hv.
Qed.

Lemma constructed_stays_valid_witness :
  fst (constructor
         (prettyNumber {| bankSlipNumber := sample_number |})
         [[ENum 1]])
  = inr {| bankSlipNumber := sample_number |}.
Proof.
  apply (constructed_stays_valid sample_number [] [[ENum 1]]
           {| bankSlipNumber := sample_number |}).
  reflexivity.
Defined.

(** X10: the [checksum()] of a constructed object is the digit at index 32
    of its number, one of 1 to 9 and never 0, and it is what [modulo11]
    gives for the other 43 digits of the barcode. *)
Theorem checksum_of_constructed (input : jsstring) (h h' : heap)
  (this : Boleto) :
  fst (constructor input h) = inr this ->
  exists c,
    checksum this = Some c
    /\ number this !! 32%nat = Some c
    /\ (49 <= c <= 57)%N
    /\ length (delete 4%nat (barcode this)) = 43%nat
    /\ fst (modulo11 (VStr (delete 4%nat (barcode this))) h')
       = Some (digit_value c).
Proof.
  intros Hc.
  destruct (constructed_record _ _ _ Hc) as (Hd & Hl & Hbd & Hbl).
  destruct (constructed_valid _ _ _ Hc) as [_ Hv].
  destruct (proj1 (valid_true_iff this h h') (Hv h)) as (_ & c & Hc4 & Hm).
  exists c. split; [exact Hc4|].
  destruct this as [s]. cbn [bankSlipNumber number] in *.
  destruct (barcode_layout s Hd Hl) as (_ & _ & H32 & _).
  split; [now rewrite <- H32|].
  destruct (modulo11_between_1_and_9_range (VStr (delete 4%nat
              (barcode {| bankSlipNumber := s |}))) h' ltac:(eexists; reflexivity))
    as (v & Hv' & Hr).
  rewrite Hv' in Hm. injection Hm as ->.
  split; [unfold digit_value in Hr; lia|].
  split; [|now rewrite Hv'].
  rewrite length_delete by (apply lookup_lt_is_Some_2; lia). lia.
Qed.

Lemma checksum_of_constructed_witness :
  exists c,
    checksum {| bankSlipNumber := sample_number |} = Some c
    /\ number {| bankSlipNumber := sample_number |} !! 32%nat = Some c
    /\ (49 <= c <= 57)%N
    /\ length (delete 4%nat (barcode {| bankSlipNumber := sample_number |}))
       = 43%nat
    /\ fst (modulo11
              (VStr (delete 4%nat
                       (barcode {| bankSlipNumber := sample_number |})))
              [])
       = Some (digit_value c).
Proof.
  apply (checksum_of_constructed sample_number [] []
           {| bankSlipNumber := sample_number |}).
  reflexivity.
Defined.

(** ** amount *)

Lemma of_uint_acc_value (u : Decimal.uint) :
  forall acc : positive,
  foldl (fun a c => 10 * a + digit_value c) (Z.pos acc) (uint_chars u)
  = Z.pos (Pos.of_uint_acc u acc).
Proof.
  induction u as [|u IH|u IH|u IH|u IH|u IH|u IH|u IH|u IH|u IH|u IH];
    intros acc; cbn [uint_chars foldl Pos.of_uint_acc]; [reflexivity|..];
    rewrite <- IH; f_equal; unfold digit_value; lia.
Qed.

Lemma of_uint_value (u : Decimal.uint) :
  digits_value (uint_chars u) = Z.of_N (N.of_uint u).
Proof.
  unfold digits_value, N.of_uint.
  induction u as [|u IH|u IH|u IH|u IH|u IH|u IH|u IH|u IH|u IH|u IH];
    cbn [uint_chars foldl Pos.of_uint]; [reflexivity|exact IH|..];
    cbn [Z.of_N]; rewrite <- of_uint_acc_value; reflexivity.
Qed.

(** Printing a non-negative integer and reading the digits back. *)
Lemma Number_toString_value (z : Z) :
  0 <= z -> digits_value (Number_toString (Some z)) = z.
Proof.
  intros Hz. unfold Number_toString.
  destruct (Z.ltb_spec z 0); [lia|].
  rewrite of_uint_value, DecimalN.Unsigned.of_to. lia.
Qed.

(** X11: the [amount()] of a constructed object is an integer part, a dot
    and exactly two digits, and read back as a number of cents it is the
    value of the ten digits of the amount field: nothing is rounded or
    lost. *)
Theorem amount_reads_back (input : jsstring) (h : heap) (this : Boleto) :
  fst (constructor input h) = inr this ->
  let n := digits_value (substr (barcode this) 9 10) in
  exists d f,
    amount this = d ++ str "." ++ f
    /\ all_digits d /\ d <> [] /\ all_digits f /\ length f = 2%nat
    /\ 100 * digits_value d + digits_value f = n.
Proof.
  intros Hc n.
  destruct (barcode_field input h this 9 10 Hc ltac:(lia) ltac:(lia))
    as (_ & _ & Hnum & Hb).
  fold n in Hnum, Hb. unfold amount. rewrite Hnum. unfold div100_toFixed2.
  destruct (Z.ltb_spec n 0) as [|Hz]; [lia|].
  rewrite Z.abs_eq by lia. cbn [app].
  pose proof (Z.mod_pos_bound n 100 ltac:(lia)) as H100.
  pose proof (Z.mod_pos_bound n 10 ltac:(lia)) as H10.
  pose proof (Z.div_pos n 100 ltac:(lia) ltac:(lia)) as Hq.
  assert (Ht : 0 <= n mod 100 / 10 <= 9).
  { split; [apply Z.div_pos; lia|].
    apply Z.lt_succ_r. apply Z.div_lt_upper_bound; lia. }
  eexists _, _. split; [reflexivity|].
  split; [now apply Number_toString_digits|].
  split.
  { intros E. unfold Number_toString in E.
    destruct (n / 100 <? 0); [discriminate E|].
    destruct (Z.to_N (n / 100)) as [|p]; [discriminate E|].
    cbn [N.to_uint] in E.
    destruct (Pos.to_uint p) eqn:Eu; try discriminate E.
    now apply DecimalPos.Unsigned.to_uint_nonnil in Eu. }
  split.
  { repeat constructor; unfold is_digit;
      apply andb_true_intro; split; apply N.leb_le; lia. }
  split; [reflexivity|].
  rewrite (Number_toString_value _ Hq).
  unfold digits_value. cbn [foldl]. unfold digit_value.
  rewrite !Z2N.id by lia.
  clear -Hz. Z.to_euclidean_division_equations. lia.
Qed.

Lemma amount_reads_back_witness :
  exists d f,
    amount {| bankSlipNumber := sample_number |} = d ++ str "." ++ f
    /\ all_digits d /\ d <> [] /\ all_digits f /\ length f = 2%nat
    /\ 100 * digits_value d + digits_value f
       = digits_value
           (substr (barcode {| bankSlipNumber := sample_number |}) 9 10).
Proof.
  apply (amount_reads_back sample_number []
           {| bankSlipNumber := sample_number |}).
  reflexivity.
Defined.

(** ** bank *)

Lemma get_property_None (o : list (list N * list N)) (key : jsstring) :
  get_property o key = None <-> key ∉ o.*1.
Proof.
  induction o as [|[k v] o IH]; cbn [get_property fmap list_fmap fst].
  - split; [intros _; apply not_elem_of_nil|reflexivity].
  - rewrite not_elem_of_cons. case_bool_decide as Hk.
    + split; [discriminate|]. intros [Hne _]. congruence.
    + rewrite IH. split; [intros Hn; split; [congruence|exact Hn]|tauto].
Qed.

Lemma get_property_elem_of (o : list (list N * list N)) (key v : jsstring) :
  get_property o key = Some v -> (key, v) ∈ o.
Proof.
  induction o as [|[k w] o IH]; cbn [get_property]; [discriminate|].
  case_bool_decide as Hk.
  - intros [= ->]. subst k. apply list_elem_of_here.
  - intros H. apply list_elem_of_further. now apply IH.
Qed.

Lemma get_property_NoDup (o : list (list N * list N)) (key v : jsstring) :
  NoDup o.*1 -> (key, v) ∈ o -> get_property o key = Some v.
Proof.
  induction o as [|[k w] o IH]; cbn [fmap list_fmap fst get_property];
    intros Hnd Hin.
  - now apply elem_of_nil in Hin.
  - apply NoDup_cons in Hnd as [Hk Hnd].
    apply elem_of_cons in Hin as [[= -> ->]|Hin].
    + now rewrite bool_decide_eq_true_2.
    + rewrite bool_decide_eq_false_2; [now apply IH|].
      intros ->. apply Hk.
      apply (list_elem_of_fmap_2 fst o (key, v) Hin).
Qed.

(** No code is listed twice, and no name is empty or "Unknown". *)
Lemma banks_keys_NoDup : NoDup banks.*1.
Proof. apply (bool_decide_unpack _). vm_compute. exact I. Qed.

Lemma banks_names :
  Forall (fun kv : list N * list N =>
            kv.2 <> [] /\ kv.2 <> str "Unknown") banks.
Proof. apply (bool_decide_unpack _). vm_compute. exact I. Qed.

(** X12: the [bank()] of a constructed object is decided by the first three
    digits of its number: it is the name listed for that code, and it is
    "Unknown" exactly when the code is not one of the 22 listed; it is never
    empty. *)
Theorem bank_of_constructed (input : jsstring) (h : heap) (this : Boleto) :
  fst (constructor input h) = inr this ->
  let code := substr (number this) 0 3 in
  (forall name, (code, name) ∈ banks -> bank this = name)
  /\ (bank this = str "Unknown" <-> code ∉ banks.*1)
  /\ bank this <> []
  /\ length banks = 22%nat.
Proof.
  intros Hc code.
  destruct (constructed_record _ _ _ Hc) as (Hd & Hl & _).
  assert (Hcode : substr (barcode this) 0 3 = code).
  { destruct this as [s]. cbn [bankSlipNumber number] in *.
    now destruct (barcode_layout s Hd Hl) as (H03 & _). }
  unfold bank. rewrite Hcode.
  assert (Hname : forall v, get_property banks code = Some v ->
                  string_or (Some v) (str "Unknown") = v
                  /\ v <> [] /\ v <> str "Unknown").
  { intros v Hv. apply get_property_elem_of in Hv.
    destruct (proj1 (Forall_forall _ _) banks_names _ Hv) as [Hne Hu].
    cbn [snd] in Hne, Hu. split; [|split; assumption].
    destruct v; [congruence|reflexivity]. }
  split; [|split; [|split]].
  - intros name Hin.
    rewrite (get_property_NoDup _ _ _ banks_keys_NoDup Hin).
    apply Hname. now apply get_property_NoDup; [apply banks_keys_NoDup|].
  - rewrite <- get_property_None.
    destruct (get_property banks code) as [v|] eqn:E.
    + destruct (Hname v eq_refl) as (-> & _ & Hu).
      split; [intros Hv; now destruct Hu|discriminate].
    + split; reflexivity.
  - destruct (get_property banks code) as [v|] eqn:E.
    + now destruct (Hname v eq_refl) as (-> & Hne & _).
    + discriminate.
  - reflexivity.
Qed.

Lemma bank_of_constructed_witness :
  bank {| bankSlipNumber := sample_number |} = str "Ita" ++ [250%N].
Proof.
  destruct (bank_of_constructed sample_number []
              {| bankSlipNumber := sample_number |} eq_refl) as (Hname & _).
  apply Hname. apply list_elem_of_In. cbn. tauto.
Defined.

(** ** The range of due dates *)

(** X13: the due date of a constructed object is UTC midnight of a day from
    1997-10-07 to 2025-02-21, the day 9999 days after the first. *)
Theorem expirationDate_range (input : jsstring) (h : heap) (this : Boleto) :
  fst (constructor input h) = inr this ->
  exists t first last,
    getTime (expirationDate this) = Some t
    /\ getTime (Date_of_string (str "1997-10-07")) = Some first
    /\ getTime (Date_of_string (str "2025-02-21")) = Some last
    /\ first <= t <= last
    /\ last = first + 9999 * msPerDay
    /\ t mod msPerDay = 0.
Proof.
  intros Hc.
  destruct (barcode_field input h this 5 4 Hc ltac:(lia) ltac:(lia))
    as (_ & _ & Hnum & Hb).
  change (10 ^ Z.of_nat 4) with 10000 in Hb.
  set (n := digits_value (substr (barcode this) 5 4)) in *.
  exists (876182400000 + n * 86400000), 876182400000, 1740096000000.
  split; [unfold expirationDate; now rewrite refDate_time, Hnum|].
  split; [reflexivity|]. split; [reflexivity|].
  split; [lia|]. split; [reflexivity|].
  unfold msPerDay.
  replace (876182400000 + n * 86400000) with ((10141 + n) * 86400000) by lia.
  apply Z.mod_mul. lia.
Qed.

Lemma expirationDate_range_witness :
  exists t first last,
    getTime (expirationDate {| bankSlipNumber := sample_number |}) = Some t
    /\ getTime (Date_of_string (str "1997-10-07")) = Some first
    /\ getTime (Date_of_string (str "2025-02-21")) = Some last
    /\ first <= t <= last
    /\ last = first + 9999 * msPerDay
    /\ t mod msPerDay = 0.
Proof.
  apply (expirationDate_range sample_number []
           {| bankSlipNumber := sample_number |}).
  reflexivity.
Defined.

(** ** Which digits validation looks at *)

Lemma valid_depends_on_barcode (s1 s2 : jsstring) (h h' : heap) :
  length s1 = 47%nat -> length s2 = 47%nat ->
  barcode {| bankSlipNumber := s1 |} = barcode {| bankSlipNumber := s2 |} ->
  fst (valid {| bankSlipNumber := s1 |} h)
  = fst (valid {| bankSlipNumber := s2 |} h').
Proof.
  intros H1 H2 E.
  rewrite (valid_run {| bankSlipNumber := s1 |} h H1).
  rewrite (valid_run {| bankSlipNumber := s2 |} h' H2).
  cbn [fst]. now rewrite E.
Qed.

Lemma barcode_insert_field_check_digit (s : jsstring) (i : nat) (c : N) :
  all_digits s -> length s = 47%nat -> is_digit c = true ->
  i = 9%nat \/ i = 20%nat \/ i = 31%nat ->
  barcode {| bankSlipNumber := <[i := c]> s |}
  = barcode {| bankSlipNumber := s |}.
Proof.
  intros Hd Hl Hc Hi.
  rewrite (barcode_slices s Hd Hl).
  rewrite barcode_slices
    by (first [now apply Forall_insert | now rewrite length_insert]).
  clear Hd.
  do 47 (destruct s as [|? s]; [discriminate Hl|]).
  destruct s; [|discriminate Hl].
  destruct Hi as [->|[->| ->]]; reflexivity.
Qed.

(** X14: the digits at indices 9, 20 and 31 of the number, the check digits
    of its three printed fields, are not looked at: replacing one of them by
    any digit changes neither the barcode nor the answer of [valid()], so
    the constructor accepts the changed number exactly when it accepts the
    original. *)
Theorem field_check_digits_are_ignored (s : jsstring) (i : nat) (c : N)
  (h h' : heap) :
  all_digits s -> length s = 47%nat -> is_digit c = true ->
  i = 9%nat \/ i = 20%nat \/ i = 31%nat ->
  barcode {| bankSlipNumber := <[i := c]> s |}
  = barcode {| bankSlipNumber := s |}
  /\ fst (valid {| bankSlipNumber := <[i := c]> s |} h)
     = fst (valid {| bankSlipNumber := s |} h')
  /\ ((exists this, fst (constructor (<[i := c]> s) h) = inr this)
      <-> (exists this, fst (constructor s h') = inr this)).
Proof.
  intros Hd Hl Hc Hi.
  pose proof (barcode_insert_field_check_digit s i c Hd Hl Hc Hi) as Hb.
  assert (Hd' : all_digits (<[i := c]> s)) by (now apply Forall_insert).
  assert (Hv : fst (valid {| bankSlipNumber := <[i := c]> s |} h)
               = fst (valid {| bankSlipNumber := s |} h')).
  { apply valid_depends_on_barcode; [now rewrite length_insert|exact Hl|].
    exact Hb. }
  split; [exact Hb|]. split; [exact Hv|].
  rewrite !constructor_run. cbv zeta.
  rewrite (filter_digits_id is_digit s) by auto.
  rewrite (filter_digits_id is_digit (<[i := c]> s)) by auto.
  rewrite Hv.
  destruct (fst (valid {| bankSlipNumber := s |} h')).
  - split; intros _; eexists; reflexivity.
  - split; intros [this [=]].
Qed.

Lemma field_check_digits_are_ignored_witness :
  barcode {| bankSlipNumber := <[9%nat := 48%N]> sample_number |}
  = barcode {| bankSlipNumber := sample_number |}
  /\ fst (valid {| bankSlipNumber := <[9%nat := 48%N]> sample_number |} [])
     = fst (valid {| bankSlipNumber := sample_number |} [])
  /\ ((exists this,
         fst (constructor (<[9%nat := 48%N]> sample_number) []) = inr this)
      <-> (exists this, fst (constructor sample_number []) = inr this)).
Proof.
  apply (field_check_digits_are_ignored sample_number 9 48%N [] []).
  - exact sample_number_digits.
  - reflexivity.
  - reflexivity.
  - now left.
Defined.

Lemma barcode_insert_check_digit (s : jsstring) (c : N) :
  all_digits s -> length s = 47%nat -> is_digit c = true ->
  barcode {| bankSlipNumber := <[32%nat := c]> s |} !! 4%nat = Some c
  /\ delete 4%nat (barcode {| bankSlipNumber := <[32%nat := c]> s |})
     = delete 4%nat (barcode {| bankSlipNumber := s |}).
Proof.
  intros Hd Hl Hc.
  rewrite (barcode_slices s Hd Hl).
  rewrite barcode_slices
    by (first [now apply Forall_insert | now rewrite length_insert]).
  clear Hd.
  do 47 (destruct s as [|? s]; [discriminate Hl|]).
  destruct s; [|discriminate Hl].
  split; reflexivity.
Qed.

(** X15: for every number of 47 digits, exactly one digit at index 32 makes
    it valid: the one that [modulo11] gives for the other 43 digits of the
    barcode.  It is never 0. *)
Theorem one_check_digit_validates (s : jsstring) (h h' : heap) :
  all_digits s -> length s = 47%nat ->
  exists c,
    (49 <= c <= 57)%N
    /\ fst (modulo11 (VStr (delete 4%nat (barcode {| bankSlipNumber := s |})))
              h') = Some (digit_value c)
    /\ forall c', is_digit c' = true ->
         (fst (valid {| bankSlipNumber := <[32%nat := c']> s |} h) = true
          <-> c' = c).
Proof.
  intros Hd Hl.
  destruct (modulo11_between_1_and_9_range
              (VStr (delete 4%nat (barcode {| bankSlipNumber := s |}))) h'
              ltac:(eexists; reflexivity)) as (v & Hv & Hr).
  exists (Z.to_N (48 + v)).
  split; [lia|]. split; [rewrite Hv; unfold digit_value; f_equal; lia|].
  intros c' Hc'.
  destruct (barcode_insert_check_digit s c' Hd Hl Hc') as [H4 Hrest].
  rewrite (valid_true_iff _ h h'). cbn [bankSlipNumber].
  rewrite length_insert, H4, Hrest, Hv. split.
  - intros (_ & c0 & [= <-] & [= E]). unfold digit_value in E. lia.
  - intros ->. split; [exact Hl|]. eexists. split; [reflexivity|].
    unfold digit_value. f_equal. lia.
Qed.

Lemma one_check_digit_validates_witness :
  exists c,
    (49 <= c <= 57)%N
    /\ fst (modulo11
              (VStr (delete 4%nat
                       (barcode {| bankSlipNumber := sample_number |})))
              []) = Some (digit_value c)
    /\ forall c', is_digit c' = true ->
         (fst (valid {| bankSlipNumber := <[32%nat := c']> sample_number |}
                 []) = true
          <-> c' = c).
Proof.
  apply (one_check_digit_validates sample_number [] []).
  - exact sample_number_digits.
  - reflexivity.
Defined.
